(** * Codec bridges of mediabunny: the xvid (MPEG-4) and LAME (MP3) wrappers

    A shallow embedding of
      - packages/mpeg4/src/xvid-bridge.c        (video decoder and encoder sessions)
      - packages/mp3-encoder/src/lame-bridge.c  (audio encoder session)
    and the properties of their session lifecycle and buffer geometry.

    The bridges are C compiled for wasm32.  Three things are modelled:
      - [int] arithmetic, 32 bits wide, with its wrap-around written out;
      - the heap of [int]-sized cells in which the session objects and the
        caller's output cells live, with [malloc], [free] and the accesses
        that C leaves undefined reported as a fault;
      - the codec library as an external collaborator: every call into it is
        recorded, with its arguments, in the history of the world, and its
        answer is an arbitrary function of that history.

    The bitstream and picture buffers belong to the caller and the codec: the
    bridges compute addresses into them and never read or write them, so they
    are addresses only.  The codec writes to these buffers and to the structs
    it is handed, not to the session objects nor to the caller's [int]
    cells. *)

From Stdlib Require Import ZArith Lia List.
From stdpp Require Import base option list gmap.

Open Scope Z_scope.

(* ===================================================================== *)
(** ** C integers and addresses on wasm32                                 *)
(* ===================================================================== *)

Module CInt.

Definition INT_MIN : Z := - 2 ^ 31.
Definition INT_MAX : Z := 2 ^ 31 - 1.

(** The values an [int] can hold. *)
Definition int_range (z : Z) : Prop := INT_MIN <= z <= INT_MAX.

(** Two's complement reduction of a mathematical integer to an [int]:
    what the i32 instructions of the target compute. *)
Definition int_wrap (z : Z) : Z := (z + 2 ^ 31) mod 2 ^ 32 - 2 ^ 31.

(** [a * b] on [int]. *)
Definition int_mul (a b : Z) : Z := int_wrap (a * b).

(** [a / b] on [int]: C99 division truncates toward zero.  The bridges only
    divide by the constants 2, 4 and 1000, for which the quotient of an
    [int] is an [int]. *)
Definition int_div (a b : Z) : Z := Z.quot a b.

(** [p + n] on an [unsigned char *]: addresses of the linear memory are
    32 bits wide. *)
Definition ptr_add (p n : Z) : Z := (p + n) mod 2 ^ 32.

End CInt.
Export CInt.

(* ===================================================================== *)
(** ** The heap, the world and the monad of bridge code                   *)
(* ===================================================================== *)

(** A pointer to an [int]-sized object is null or designates cell [i] of an
    allocated block (the members of a session struct are the cells 0, 1, 2
    of its block). *)
Definition block := positive.

Inductive ptr : Type :=
| NULL
| Ptr (b : block) (i : nat).
Arguments Ptr b%_positive i%_nat.

#[global] Instance ptr_eq_dec : EqDecision ptr.
Proof. solve_decision. Defined.

(** A cell holds a value, or nothing yet (a [malloc]ed object is
    indeterminate until written). *)
Abbreviation mem := (gmap block (list (option Z))).

(** [p->field], for the member at cell offset [k]. *)
Definition field (p : ptr) (k : nat) : ptr :=
  match p with
  | NULL => NULL
  | Ptr b i => Ptr b (i + k)
  end.

(** Reading and writing a cell of the heap; [None] where C leaves the
    access undefined. *)
Definition peek (m : mem) (p : ptr) : option Z :=
  match p with
  | NULL => None
  | Ptr b i =>
      match m !! b with
      | Some cs => match cs !! i with Some (Some v) => Some v | _ => None end
      | None => None
      end
  end.

Definition poke (m : mem) (p : ptr) (v : Z) : option mem :=
  match p with
  | NULL => None
  | Ptr b i =>
      match m !! b with
      | Some cs =>
          if decide (i < length cs)%nat
          then Some (<[b := <[i := Some v]> cs]> m)
          else None
      | None => None
      end
  end.

Section Machine.

(** The calls the bridge makes into its codec library, and what the
    library answers. *)
Context {call reply : Type}.

(** The library: its answer to a call may depend on every call made
    before (newest first). *)
Variable lib : list call -> call -> reply.

Record world : Type := World {
  heap : mem;            (* the int-sized objects that are allocated *)
  budget : nat;          (* objects [malloc] can still provide *)
  calls : list call      (* calls made into the library, newest first *)
}.

(** A computation ends with a value, or faults where C leaves the
    behaviour undefined; the world at the fault is kept. *)
Inductive outcome (A : Type) : Type :=
| Ok (a : A) (W : world)
| Fault (W : world).
Arguments Ok {A} a W.
Arguments Fault {A} W.

Definition M (A : Type) : Type := world -> outcome A.

Definition pure {A} (a : A) : M A := fun W => Ok a W.

Definition bind {A B} (m : M A) (k : A -> M B) : M B :=
  fun W => match m W with
           | Ok a W' => k a W'
           | Fault W' => Fault W'
           end.

Definition final {A} (o : outcome A) : world :=
  match o with Ok _ W => W | Fault W => W end.

Definition load (p : ptr) : M Z :=
  fun W => match peek (heap W) p with
           | Some v => Ok v W
           | None => Fault W
           end.

Definition store (p : ptr) (v : Z) : M unit :=
  fun W => match poke (heap W) p v with
           | Some m => Ok tt (World m (budget W) (calls W))
           | None => Fault W
           end.

(** [malloc] of an object of [n] cells: null when nothing is left. *)
Definition malloc (n : nat) : M ptr :=
  fun W => match budget W with
           | O => Ok NULL W
           | S k =>
               let b := fresh (dom (heap W)) in
               Ok (Ptr b 0)
                  (World (<[b := replicate n None]> (heap W)) k (calls W))
           end.

(** [free]: nothing on null; otherwise the start of a live block. *)
Definition free (p : ptr) : M unit :=
  fun W => match p with
           | NULL => Ok tt W
           | Ptr b O =>
               match heap W !! b with
               | Some _ =>
                   Ok tt (World (delete b (heap W)) (S (budget W)) (calls W))
               | None => Fault W
               end
           | Ptr _ (S _) => Fault W
           end.

(** A call into the library: recorded, and answered from the history. *)
Definition call_lib (c : call) : M reply :=
  fun W => Ok (lib (calls W) c) (World (heap W) (budget W) (c :: calls W)).

End Machine.

Arguments world call : clear implicits.
Arguments outcome call A : clear implicits.
Arguments M call A : clear implicits.
Arguments Ok {call A} a W.
Arguments Fault {call A} W.
Arguments World {call} heap budget calls.

Arguments pure {call A} a W.
Arguments bind {call A B} m k W.

Notation "'do' x <- m ; k" := (bind m (fun x => k))
  (at level 10, x name, m at level 100, k at level 200).
Notation "m ;; k" := (bind m (fun _ => k))
  (at level 100, k at level 200, right associativity).

(* ===================================================================== *)
(** ** packages/mpeg4/src/xvid-bridge.c                                   *)
(* ===================================================================== *)

Module Xvid.

(** Modelled from the spec: the declarations of ../lib/xvid.h are missing
    from the sources.  The constants of the header that the bridge uses are
    the members of this class, so every statement holds for any value of
    them. *)
Class xvid_h : Type := {
  XVID_VERSION : Z;
  XVID_CSP_I420 : Z;
  XVID_TYPE_AUTO : Z;
  XVID_TYPE_IVOP : Z
}.

(** Modelled from the spec: the structs of ../lib/xvid.h, with the members
    that the bridge names and that section 6 of the specification lists for
    the codec collaborator (global-init flags; decoder-create width, height
    and handle; planes, strides and colour space of a picture; type, width
    and height of the decoder statistics; the parameters of encoder-create;
    the length of the encoder statistics).  A pointer member holds an
    address, 0 for null. *)
Record xvid_gbl_init_t : Type := {
  gbl_version : Z;
  gbl_cpu_flags : Z
}.

Record xvid_dec_create_t : Type := {
  dec_create_version : Z;
  dec_create_width : Z;
  dec_create_height : Z;
  dec_create_handle : Z
}.

(** A picture: colour space, plane addresses and strides (the entries 0, 1
    and 2 are those of Y, U and V). *)
Record xvid_image_t : Type := {
  csp : Z;
  plane : list Z;
  stride : list Z
}.

Record xvid_dec_frame_t : Type := {
  dec_frame_version : Z;
  dec_frame_general : Z;
  dec_frame_bitstream : Z;
  dec_frame_length : Z;
  dec_frame_output : xvid_image_t
}.

(** [type] and the [data.vol] member of the statistics. *)
Record xvid_dec_stats_t : Type := {
  dec_stats_version : Z;
  dec_stats_type : Z;
  dec_stats_vol_width : Z;
  dec_stats_vol_height : Z
}.

Record xvid_enc_create_t : Type := {
  enc_create_version : Z;
  enc_create_width : Z;
  enc_create_height : Z;
  enc_create_fincr : Z;
  enc_create_fbase : Z;
  enc_create_zones : Z;
  enc_create_num_zones : Z;
  enc_create_plugins : Z;
  enc_create_num_plugins : Z;
  enc_create_num_threads : Z;
  enc_create_max_bframes : Z;
  enc_create_max_key_interval : Z;
  enc_create_global : Z;
  enc_create_handle : Z
}.

Record xvid_enc_frame_t : Type := {
  enc_frame_version : Z;
  enc_frame_type : Z;
  enc_frame_bitstream : Z;
  enc_frame_length : Z;
  enc_frame_input : xvid_image_t;
  enc_frame_vop_flags : Z;
  enc_frame_vol_flags : Z;
  enc_frame_motion : Z;
  enc_frame_quant : Z
}.

Record xvid_enc_stats_t : Type := {
  enc_stats_version : Z;
  enc_stats_length : Z
}.

(** The calls into the library: [xvid_global], and one constructor for each
    request (second argument) of [xvid_decore] and [xvid_encore], with the
    handle and the structs passed; an argument that is always the null
    pointer is left out. *)
Inductive xvid_call : Type :=
| xvid_global (handle : Z) (opt : Z) (param1 : xvid_gbl_init_t)
| XVID_DEC_CREATE (handle : Z) (param1 : xvid_dec_create_t)
| XVID_DEC_DECODE (handle : Z) (param1 : xvid_dec_frame_t)
                  (param2 : xvid_dec_stats_t)
| XVID_DEC_DESTROY (handle : Z)
| XVID_ENC_CREATE (handle : Z) (param1 : xvid_enc_create_t)
| XVID_ENC_ENCODE (handle : Z) (param1 : xvid_enc_frame_t)
                  (param2 : xvid_enc_stats_t)
| XVID_ENC_DESTROY (handle : Z).

(** What a call leaves behind: its return value and the members the
    library wrote into the structs it was given ([handle] of a create
    struct, the statistics of a decode or encode step). *)
Record xvid_reply : Type := {
  ret_code : Z;
  out_handle : Z;
  out_dec_stats : xvid_dec_stats_t;
  out_enc_stats : xvid_enc_stats_t
}.

(** [decoder_state] and [encoder_state]: three cells each. *)
Definition sizeof_decoder_state : nat := 3.
Definition sizeof_encoder_state : nat := 3.
Definition decoder_handle (state : ptr) : ptr := field state 0.
Definition encoder_handle (state : ptr) : ptr := field state 0.
Definition width (state : ptr) : ptr := field state 1.
Definition height (state : ptr) : ptr := field state 2.

Definition is_null (p : ptr) : bool :=
  match p with NULL => true | Ptr _ _ => false end.

Section Bridge.

Context `{xvid_h}.
Variable lib : list xvid_call -> xvid_call -> xvid_reply.

Definition init_decoder (width_hint height_hint : Z) : M xvid_call ptr :=
  let xvid_init :=
    {| gbl_version := XVID_VERSION; gbl_cpu_flags := 0 |} in
  call_lib lib (xvid_global 0 0 xvid_init) ;;
  let dec_create :=
    {| dec_create_version := XVID_VERSION;
       dec_create_width := 0;
       dec_create_height := 0;
       dec_create_handle := 0 |} in
  do state <- malloc sizeof_decoder_state;
  do r <- call_lib lib (XVID_DEC_CREATE 0 dec_create);
  if negb (ret_code r =? 0) then
    free state ;;
    pure NULL
  else
    store (decoder_handle state) (out_handle r) ;;
    store (width state) width_hint ;;
    store (height state) height_hint ;;
    pure state.

Definition decode_frame (state : ptr) (input_buf input_size output_buf : Z)
    (out_type out_width out_height : ptr) : M xvid_call Z :=
  let plane0 := output_buf in
  do w1 <- load (width state);
  do h1 <- load (height state);
  let plane1 := ptr_add output_buf (int_mul w1 h1) in
  do w2 <- load (width state);
  do h2 <- load (height state);
  let plane2 :=
    ptr_add output_buf (int_div (int_mul (int_mul w2 h2) 5) 4) in
  do stride0 <- load (width state);
  do w3 <- load (width state);
  let stride1 := int_div w3 2 in
  do w4 <- load (width state);
  let stride2 := int_div w4 2 in
  let dec_frame :=
    {| dec_frame_version := XVID_VERSION;
       dec_frame_general := 0;
       dec_frame_bitstream := input_buf;
       dec_frame_length := input_size;
       dec_frame_output :=
         {| csp := XVID_CSP_I420;
            plane := [plane0; plane1; plane2];
            stride := [stride0; stride1; stride2] |} |} in
  let dec_stats :=
    {| dec_stats_version := XVID_VERSION;
       dec_stats_type := 0;
       dec_stats_vol_width := 0;
       dec_stats_vol_height := 0 |} in
  do handle <- load (decoder_handle state);
  do r <- call_lib lib (XVID_DEC_DECODE handle dec_frame dec_stats);
  let ret := ret_code r in
  let dec_stats := out_dec_stats r in
  (if dec_stats_type dec_stats =? -1 then
     store (width state) (dec_stats_vol_width dec_stats) ;;
     store (height state) (dec_stats_vol_height dec_stats)
   else pure tt) ;;
  (if is_null out_type then pure tt
   else store out_type (dec_stats_type dec_stats)) ;;
  (if is_null out_width then pure tt
   else do w <- load (width state); store out_width w) ;;
  (if is_null out_height then pure tt
   else do h <- load (height state); store out_height h) ;;
  pure ret.

Definition close_decoder (state : ptr) : M xvid_call unit :=
  if is_null state then pure tt
  else
    do handle <- load (decoder_handle state);
    (if handle =? 0 then pure tt
     else call_lib lib (XVID_DEC_DESTROY handle) ;; pure tt) ;;
    free state.

Definition init_encoder (width_arg height_arg bitrate fps_num fps_den : Z)
    : M xvid_call ptr :=
  let xvid_init :=
    {| gbl_version := XVID_VERSION; gbl_cpu_flags := 0 |} in
  call_lib lib (xvid_global 0 0 xvid_init) ;;
  let enc_create :=
    {| enc_create_version := XVID_VERSION;
       enc_create_width := width_arg;
       enc_create_height := height_arg;
       enc_create_fincr := fps_den;
       enc_create_fbase := fps_num;
       enc_create_zones := 0;
       enc_create_num_zones := 0;
       enc_create_plugins := 0;
       enc_create_num_plugins := 0;
       enc_create_num_threads := 0;
       enc_create_max_bframes := 0;
       enc_create_max_key_interval := 250;
       enc_create_global := 0;
       enc_create_handle := 0 |} in
  do state <- malloc sizeof_encoder_state;
  do r <- call_lib lib (XVID_ENC_CREATE 0 enc_create);
  if negb (ret_code r =? 0) then
    free state ;;
    pure NULL
  else
    store (encoder_handle state) (out_handle r) ;;
    store (width state) width_arg ;;
    store (height state) height_arg ;;
    pure state.

Definition encode_frame (state : ptr)
    (yuv_input output_buf output_buf_size force_keyframe : Z)
    : M xvid_call Z :=
  let type := if force_keyframe =? 0 then XVID_TYPE_AUTO
              else XVID_TYPE_IVOP in
  let plane0 := yuv_input in
  do w1 <- load (width state);
  do h1 <- load (height state);
  let plane1 := ptr_add yuv_input (int_mul w1 h1) in
  do w2 <- load (width state);
  do h2 <- load (height state);
  let plane2 :=
    ptr_add yuv_input (int_div (int_mul (int_mul w2 h2) 5) 4) in
  do stride0 <- load (width state);
  do w3 <- load (width state);
  let stride1 := int_div w3 2 in
  do w4 <- load (width state);
  let stride2 := int_div w4 2 in
  let enc_frame :=
    {| enc_frame_version := XVID_VERSION;
       enc_frame_type := type;
       enc_frame_bitstream := output_buf;
       enc_frame_length := output_buf_size;
       enc_frame_input :=
         {| csp := XVID_CSP_I420;
            plane := [plane0; plane1; plane2];
            stride := [stride0; stride1; stride2] |};
       enc_frame_vop_flags := 0;
       enc_frame_vol_flags := 0;
       enc_frame_motion := 0;
       enc_frame_quant := 0 |} in
  let enc_stats :=
    {| enc_stats_version := XVID_VERSION; enc_stats_length := 0 |} in
  do handle <- load (encoder_handle state);
  do r <- call_lib lib (XVID_ENC_ENCODE handle enc_frame enc_stats);
  let ret := ret_code r in
  let enc_stats := out_enc_stats r in
  if 0 <? ret then pure (enc_stats_length enc_stats)
  else pure ret.

Definition close_encoder (state : ptr) : M xvid_call unit :=
  if is_null state then pure tt
  else
    do handle <- load (encoder_handle state);
    (if handle =? 0 then pure tt
     else call_lib lib (XVID_ENC_DESTROY handle) ;; pure tt) ;;
    free state.

End Bridge.

End Xvid.


(* ===================================================================== *)
(** ** packages/mp3-encoder/src/lame-bridge.c                             *)
(* ===================================================================== *)

Module Lame.

(** Modelled from the spec: the declarations of ../lib/lame.h are missing
    from the sources.  The functions of the library that the bridge calls
    (create-context, the five configuration setters, finalize-configuration,
    encode, flush and destroy-context in section 6 of the specification) are
    the constructors of [lame_call], each with the arguments it is given; a
    [lame_global_flags *] and a buffer are passed as their addresses. *)
Inductive lame_call : Type :=
| lame_init
| lame_set_num_channels (gfp : Z) (number_of_channels : Z)
| lame_set_in_samplerate (gfp : Z) (sample_rate : Z)
| lame_set_out_samplerate (gfp : Z) (sample_rate : Z)
| lame_set_brate (gfp : Z) (brate : Z)
| lame_set_bWriteVbrTag (gfp : Z) (flag : Z)
| lame_init_params (gfp : Z)
| lame_encode_buffer (gfp : Z) (left_buf right_buf : Z) (sample_count : Z)
                     (dest_buf : Z) (dest_buf_size : Z)
| lame_encode_flush (gfp : Z) (dest_buf : Z) (dest_buf_size : Z)
| lame_close (gfp : Z).

Section Bridge.

(** The library answers every call with one machine word: the context for
    [lame_init], the return code otherwise. *)
Variable lib : list lame_call -> lame_call -> Z.

Definition init_lame (number_of_channels sample_rate bitrate : Z)
    : M lame_call Z :=
  do gfp <- call_lib lib lame_init;
  call_lib lib (lame_set_num_channels gfp number_of_channels) ;;
  call_lib lib (lame_set_in_samplerate gfp sample_rate) ;;
  call_lib lib (lame_set_out_samplerate gfp sample_rate) ;;
  call_lib lib (lame_set_brate gfp (int_div bitrate 1000)) ;;
  call_lib lib (lame_set_bWriteVbrTag gfp 0) ;;
  do ret_code <- call_lib lib (lame_init_params gfp);
  pure gfp.

Definition encode_samples (gfp left_buf right_buf sample_count : Z)
    (dest_buf dest_buf_size : Z) : M lame_call Z :=
  call_lib lib (lame_encode_buffer gfp left_buf right_buf sample_count
                                   dest_buf dest_buf_size).

Definition flush_lame (gfp dest_buf dest_buf_size : Z) : M lame_call Z :=
  call_lib lib (lame_encode_flush gfp dest_buf dest_buf_size).

Definition close_lame (gfp : Z) : M lame_call unit :=
  call_lib lib (lame_close gfp) ;; pure tt.

End Bridge.

End Lame.

Import Xvid Lame.

(* ===================================================================== *)
(** ** Vocabulary of the statements                                       *)
(* ===================================================================== *)

(** [p] designates a cell of an allocated object. *)
Definition valid (m : mem) (p : ptr) : Prop :=
  match p with
  | NULL => False
  | Ptr b i => exists cs, m !! b = Some cs /\ (i < length cs)%nat
  end.

(** [p] does not point into block [b]. *)
Definition outside (b : block) (p : ptr) : Prop :=
  match p with
  | NULL => True
  | Ptr b' _ => b' <> b
  end.

(** An output parameter of a call on the session in block [b]: null, or a
    cell of the caller's that is not part of the session object. *)
Definition out_param (m : mem) (b : block) (p : ptr) : Prop :=
  p = NULL \/ (valid m p /\ outside b p).

(** The heap after [if (p) *p = v;]. *)
Definition write (p : ptr) (v : Z) (m : mem) : mem :=
  match p with
  | NULL => m
  | Ptr b i =>
      match m !! b with
      | Some cs => <[b := <[i := Some v]> cs]> m
      | None => m
      end
  end.

(** A session object with its three members set. *)
Definition session (handle w h : Z) : list (option Z) :=
  [Some handle; Some w; Some h].

(** The codec contexts the history leaves open: created with success and
    not destroyed since. *)
Fixpoint open_contexts (history : list xvid_call)
    (lib : list xvid_call -> xvid_call -> xvid_reply) : list Z :=
  match history with
  | [] => []
  | c :: before =>
      let open := open_contexts before lib in
      match c with
      | XVID_DEC_CREATE _ _ | XVID_ENC_CREATE _ _ =>
          if ret_code (lib before c) =? 0
          then out_handle (lib before c) :: open
          else open
      | XVID_DEC_DESTROY h | XVID_ENC_DESTROY h =>
          filter (fun h' => h' <> h) open
      | _ => open
      end
  end.

(* ===================================================================== *)
(** ** Test doubles for the codec libraries                               *)
(* ===================================================================== *)

(** The constants of xvid.h, release 1.3. *)
Definition xvid_1_3 : xvid_h :=
  {| XVID_VERSION := 66304;
     XVID_CSP_I420 := 2;
     XVID_TYPE_AUTO := 0;
     XVID_TYPE_IVOP := 1 |}.

(** An xvid library that answers every call the same way. *)
Definition xvid_double (ret handle type vol_w vol_h length : Z)
    : list xvid_call -> xvid_call -> xvid_reply :=
  fun _ _ =>
    {| ret_code := ret;
       out_handle := handle;
       out_dec_stats :=
         {| dec_stats_version := 66304;
            dec_stats_type := type;
            dec_stats_vol_width := vol_w;
            dec_stats_vol_height := vol_h |};
       out_enc_stats :=
         {| enc_stats_version := 66304; enc_stats_length := length |} |}.

(** A LAME library that answers every call the same way. *)
Definition lame_double (answer : Z) : list lame_call -> lame_call -> Z :=
  fun _ _ => answer.

(** A LAME library whose parameter validation fails (-1), every other call
    answering [answer]. *)
Definition lame_rejecting (answer : Z) : list lame_call -> lame_call -> Z :=
  fun _ c =>
    match c with
    | lame_init_params _ => -1
    | _ => answer
    end.

(** A heap with one session (block 1: context 7, dimensions [w] x [h]) and
    three cells of the caller's (blocks 2, 3 and 4). *)
Definition one_session (w h : Z) : world xvid_call :=
  World (<[1%positive := session 7 w h]>
           (<[2%positive := [None]]>
              (<[3%positive := [None]]>
                 (<[4%positive := [None]]> ∅))))
        0 [].

(** Nothing allocated, and room for [n] objects. *)
Definition empty_world {call : Type} (n : nat) : world call := World ∅ n [].

(* ===================================================================== *)
(** ** Wrap-around                                                        *)
(* ===================================================================== *)

Lemma int_wrap_id z : int_range z -> int_wrap z = z.
Proof.
  unfold int_range, INT_MIN, INT_MAX, int_wrap. intros Hz.
  rewrite Z.mod_small; lia.
Qed.

Lemma int_mul_exact a b : int_range (a * b) -> int_mul a b = a * b.
Proof. apply int_wrap_id. Qed.

(** The product of two even numbers is a multiple of four. *)
Lemma even_mul_4 w h :
  Z.even w = true -> Z.even h = true -> exists q, w * h = 4 * q.
Proof.
  intros Hw Hh.
  apply Z.even_spec in Hw as [a ->]. apply Z.even_spec in Hh as [c ->].
  exists (a * c). ring.
Qed.

(* ===================================================================== *)
(** ** The heap                                                           *)
(* ===================================================================== *)

Section MachineFacts.

Context {call reply : Type}.
Variable lib : list call -> call -> reply.

Implicit Types W : world call.

Lemma bind_pure {A B} (a : A) (k : A -> M call B) W :
  bind (pure a) k W = k a W.
Proof. reflexivity. Qed.

Lemma bind_load {B} p v (k : Z -> M call B) W :
  peek (heap W) p = Some v -> bind (load p) k W = k v W.
Proof. intros Hp. unfold bind, load. now rewrite Hp. Qed.

Lemma bind_load_fault {B} p (k : Z -> M call B) W :
  peek (heap W) p = None -> bind (load p) k W = Fault W.
Proof. intros Hp. unfold bind, load. now rewrite Hp. Qed.

Lemma bind_store {B} p v m (k : unit -> M call B) W :
  poke (heap W) p v = Some m ->
  bind (store p v) k W = k tt (World m (budget W) (calls W)).
Proof. intros Hp. unfold bind, store. now rewrite Hp. Qed.

Lemma bind_store_fault {B} p v (k : unit -> M call B) W :
  poke (heap W) p v = None -> bind (store p v) k W = Fault W.
Proof. intros Hp. unfold bind, store. now rewrite Hp. Qed.

Lemma bind_call {B} c (k : reply -> M call B) W :
  bind (call_lib lib c) k W
  = k (lib (calls W) c) (World (heap W) (budget W) (c :: calls W)).
Proof. reflexivity. Qed.

End MachineFacts.

Lemma peek_cell (m : mem) b i cs v :
  m !! b = Some cs -> cs !! i = Some (Some v) -> peek m (Ptr b i) = Some v.
Proof. intros Hb Hi. simpl. now rewrite Hb, Hi. Qed.

Lemma poke_cell (m : mem) b i cs v :
  m !! b = Some cs -> (i < length cs)%nat ->
  poke m (Ptr b i) v = Some (<[b := <[i := Some v]> cs]> m).
Proof.
  intros Hb Hi. simpl. rewrite Hb. destruct (decide (i < length cs)%nat); [done | lia].
Qed.

Lemma poke_write (m : mem) p v : valid m p -> poke m p v = Some (write p v m).
Proof.
  destruct p as [|b i]; simpl; [tauto |].
  intros (cs & Hb & Hi). rewrite Hb.
  destruct (decide (i < length cs)%nat); [done | lia].
Qed.

Lemma write_outside (m : mem) p v b :
  outside b p -> write p v m !! b = m !! b.
Proof.
  destruct p as [|b' i]; simpl; [done |].
  intros Hne. destruct (m !! b') eqn:Hb'; [| done].
  now rewrite lookup_insert_ne.
Qed.

Lemma write_valid (m : mem) p v q : valid m q -> valid (write p v m) q.
Proof.
  destruct q as [|bq iq]; simpl; [done |].
  intros (cs & Hb & Hi).
  destruct p as [|b i]; simpl; [eauto |].
  destruct (m !! b) as [cs'|] eqn:Hb'; [| eauto].
  destruct (decide (b = bq)) as [-> | Hne].
  - rewrite lookup_insert_eq. eexists; split; [done |].
    rewrite length_insert. congruence.
  - rewrite lookup_insert_ne by done. eauto.
Qed.

Lemma peek_write_eq (m : mem) p v : valid m p -> peek (write p v m) p = Some v.
Proof.
  destruct p as [|b i]; simpl; [tauto |].
  intros (cs & Hb & Hi). rewrite Hb, lookup_insert_eq.
  now rewrite list_lookup_insert_eq.
Qed.

Lemma peek_write_ne (m : mem) p q v : p <> q -> peek (write q v m) p = peek m p.
Proof.
  intros Hne. destruct p as [|b i], q as [|b' i']; simpl; try done.
  destruct (m !! b') as [cs'|] eqn:Hb'; [| done].
  destruct (decide (b' = b)) as [-> | Hb].
  - rewrite lookup_insert_eq, Hb'.
    rewrite list_lookup_insert_ne; [done | congruence].
  - now rewrite lookup_insert_ne.
Qed.

Lemma insert_valid (m : mem) b cs p :
  outside b p -> valid m p -> valid (<[b := cs]> m) p.
Proof.
  destruct p as [|b' i]; simpl; [done |].
  intros Hne (cs' & Hb' & Hi). exists cs'. now rewrite lookup_insert_ne.
Qed.

Lemma out_param_insert (m : mem) b cs p :
  out_param m b p -> out_param (<[b := cs]> m) b p.
Proof.
  intros [-> | [Hv Ho]]; [now left | right].
  split; [now apply insert_valid | done].
Qed.

Lemma peek_write_outside (m : mem) p v b i :
  outside b p -> peek (write p v m) (Ptr b i) = peek m (Ptr b i).
Proof. intros Ho. simpl. now rewrite write_outside. Qed.

Lemma out_param_outside (m : mem) b p : out_param m b p -> outside b p.
Proof. intros [-> | [_ Ho]]; [exact I | exact Ho]. Qed.

Section Reports.

Context {call : Type}.
Implicit Types W : world call.

(** [if (p) *p = v;] on a null or valid [p]. *)
Lemma bind_report {B} p v (k : unit -> M call B) W :
  p = NULL \/ valid (heap W) p ->
  bind (if Xvid.is_null p then pure tt else store p v) k W
  = k tt (World (write p v (heap W)) (budget W) (calls W)).
Proof.
  intros [-> | Hv].
  - destruct W; reflexivity.
  - destruct p as [|b i]; [destruct Hv |].
    simpl Xvid.is_null. cbv iota.
    erewrite bind_store; [reflexivity | now apply poke_write].
Qed.

(** [if (p) *p = *q;] on a null or valid [p] and a readable [q]. *)
Lemma bind_report_field {B} p q v (k : unit -> M call B) W :
  p = NULL \/ valid (heap W) p ->
  peek (heap W) q = Some v ->
  bind (if Xvid.is_null p then pure tt
        else bind (load q) (fun x => store p x)) k W
  = k tt (World (write p v (heap W)) (budget W) (calls W)).
Proof.
  intros [-> | Hv] Hq.
  - destruct W; reflexivity.
  - destruct p as [|b i]; [destruct Hv |].
    simpl Xvid.is_null. cbv iota.
    unfold bind at 1. erewrite bind_load by eassumption.
    unfold store. rewrite poke_write by assumption. reflexivity.
Qed.

End Reports.

(* ===================================================================== *)
(** ** The video decoder session                                          *)
(* ===================================================================== *)

Section XvidFacts.

Context `{xvid_h}.
Variable lib : list xvid_call -> xvid_call -> xvid_reply.

Implicit Types W : world xvid_call.

(** One decode step on a live session, in full: the request made, the
    value returned and the heap left behind. *)
Lemma decode_frame_run W b hd w h input_buf input_size output_buf
    out_type out_width out_height :
  heap W !! b = Some (session hd w h) ->
  out_param (heap W) b out_type ->
  out_param (heap W) b out_width ->
  out_param (heap W) b out_height ->
  let request :=
    XVID_DEC_DECODE hd
      {| dec_frame_version := XVID_VERSION;
         dec_frame_general := 0;
         dec_frame_bitstream := input_buf;
         dec_frame_length := input_size;
         dec_frame_output :=
           {| csp := XVID_CSP_I420;
              plane := [output_buf;
                        ptr_add output_buf (int_mul w h);
                        ptr_add output_buf
                          (int_div (int_mul (int_mul w h) 5) 4)];
              stride := [w; int_div w 2; int_div w 2] |} |}
      {| dec_stats_version := XVID_VERSION;
         dec_stats_type := 0;
         dec_stats_vol_width := 0;
         dec_stats_vol_height := 0 |} in
  let r := lib (calls W) request in
  let stats := out_dec_stats r in
  let header := dec_stats_type stats =? -1 in
  let w' := if header then dec_stats_vol_width stats else w in
  let h' := if header then dec_stats_vol_height stats else h in
  decode_frame lib (Ptr b 0) input_buf input_size output_buf
               out_type out_width out_height W
  = Ok (ret_code r)
       (World (write out_height h'
                 (write out_width w'
                    (write out_type (dec_stats_type stats)
                       (<[b := session hd w' h']> (heap W)))))
              (budget W) (request :: calls W)).
Proof.
  intros Hb Ht Hw Hh request r stats header w' h'.
  unfold decode_frame, width, height, decoder_handle, field; simpl.
  assert (Pw : peek (heap W) (Ptr b 1) = Some w) by (eapply peek_cell; eauto).
  assert (Ph : peek (heap W) (Ptr b 2) = Some h) by (eapply peek_cell; eauto).
  assert (Pd : peek (heap W) (Ptr b 0) = Some hd) by (eapply peek_cell; eauto).
  repeat first [ erewrite (bind_load (Ptr b 1)) by eassumption
               | erewrite (bind_load (Ptr b 2)) by eassumption
               | erewrite (bind_load (Ptr b 0)) by eassumption ].
  rewrite bind_call. fold request. fold r. simpl. fold stats.
  set (W1 := World (heap W) (budget W) (request :: calls W)).
  set (m1 := <[b := session hd w' h']> (heap W)).
  assert (Hdims : forall B (k : unit -> M xvid_call B),
    bind (if dec_stats_type stats =? -1
          then store (Ptr b 1) (dec_stats_vol_width stats) ;;
               store (Ptr b 2) (dec_stats_vol_height stats)
          else pure tt) k W1
    = k tt (World m1 (budget W) (request :: calls W))).
  { intros B k. subst m1 w' h' header.
    destruct (dec_stats_type stats =? -1).
    - unfold bind at 1.
      erewrite bind_store by (simpl; eapply poke_cell; [exact Hb | simpl; lia]).
      unfold store. simpl heap.
      erewrite poke_cell by (first [apply lookup_insert_eq | simpl; lia]).
      simpl. now rewrite insert_insert_eq.
    - rewrite bind_pure. subst W1. now rewrite insert_id by exact Hb. }
  rewrite Hdims.
  assert (Pw' : peek m1 (Ptr b 1) = Some w').
  { eapply peek_cell; [apply lookup_insert_eq | reflexivity]. }
  assert (Ph' : peek m1 (Ptr b 2) = Some h').
  { eapply peek_cell; [apply lookup_insert_eq | reflexivity]. }
  pose proof (out_param_outside _ _ _ Ht) as Ot.
  pose proof (out_param_outside _ _ _ Hw) as Ow.
  pose proof (out_param_outside _ _ _ Hh) as Oh.
  apply (out_param_insert _ _ (session hd w' h')) in Ht, Hw, Hh.
  fold m1 in Ht, Hw, Hh.
  rewrite bind_report
    by (simpl; destruct Ht as [-> | [Hv _]]; [now left | now right]).
  simpl heap; simpl budget; simpl calls.
  rewrite (bind_report_field _ _ w').
  2:{ simpl. destruct Hw as [-> | [Hv _]]; [now left | right].
      now apply write_valid. }
  2:{ simpl heap. now rewrite peek_write_outside. }
  simpl heap; simpl budget; simpl calls.
  rewrite (bind_report_field _ _ h').
  2:{ simpl. destruct Hh as [-> | [Hv _]]; [now left | right].
      now do 2 apply write_valid. }
  2:{ simpl heap. now rewrite !peek_write_outside. }
  reflexivity.
Qed.

End XvidFacts.

(** Reading back what a decode step reported. *)
Lemma reported_type (m : mem) out_type out_width out_height ty w h :
  valid m out_type -> out_type <> out_width -> out_type <> out_height ->
  peek (write out_height h (write out_width w (write out_type ty m))) out_type
  = Some ty.
Proof.
  intros Hv Hw Hh. rewrite !peek_write_ne by done. now apply peek_write_eq.
Qed.

Lemma reported_width (m : mem) out_type out_width out_height ty w h :
  valid m out_width -> out_width <> out_height ->
  peek (write out_height h (write out_width w (write out_type ty m))) out_width
  = Some w.
Proof.
  intros Hv Hh. rewrite peek_write_ne by done.
  apply peek_write_eq. now apply write_valid.
Qed.

Lemma reported_height (m : mem) out_type out_width out_height ty w h :
  valid m out_height ->
  peek (write out_height h (write out_width w (write out_type ty m))) out_height
  = Some h.
Proof. intros Hv. apply peek_write_eq. now do 2 apply write_valid. Qed.

Lemma out_param_valid (m : mem) b p : out_param m b p -> p <> NULL -> valid m p.
Proof. intros [-> | [Hv _]] Hp; [done | exact Hv]. Qed.

(** C1: a decode step on a live session requests the picture at the plane
    geometry computed from the width and height the session had before the
    call; a header-only result (frame type -1) overwrites the session's width
    and height with the parsed values; and in every outcome the frame type and
    the width and height the session has after the call are stored through
    each output pointer that is supplied. *)
Theorem decode_frame_reports_dimensions `{xvid_h}
    (lib : list xvid_call -> xvid_call -> xvid_reply) (W : world xvid_call)
    b hd w h input_buf input_size output_buf out_type out_width out_height :
  heap W !! b = Some (session hd w h) ->
  out_param (heap W) b out_type ->
  out_param (heap W) b out_width ->
  out_param (heap W) b out_height ->
  exists frame stats0 W' w' h',
    let r := lib (calls W) (XVID_DEC_DECODE hd frame stats0) in
    let stats := out_dec_stats r in
    decode_frame lib (Ptr b 0) input_buf input_size output_buf
                 out_type out_width out_height W
    = Ok (ret_code r) W'
    /\ calls W' = XVID_DEC_DECODE hd frame stats0 :: calls W
    (* the geometry of the request is that of the dimensions at call time *)
    /\ plane (dec_frame_output frame)
       = [output_buf;
          ptr_add output_buf (int_mul w h);
          ptr_add output_buf (int_div (int_mul (int_mul w h) 5) 4)]
    /\ stride (dec_frame_output frame) = [w; int_div w 2; int_div w 2]
    (* the session after the call *)
    /\ heap W' !! b = Some (session hd w' h')
    /\ (dec_stats_type stats = -1 ->
        w' = dec_stats_vol_width stats /\ h' = dec_stats_vol_height stats)
    /\ (dec_stats_type stats <> -1 -> w' = w /\ h' = h)
    (* what is reported back *)
    /\ (out_type <> NULL -> out_type <> out_width -> out_type <> out_height ->
        peek (heap W') out_type = Some (dec_stats_type stats))
    /\ (out_width <> NULL -> out_width <> out_height ->
        peek (heap W') out_width = Some w')
    /\ (out_height <> NULL -> peek (heap W') out_height = Some h').
Proof.
  intros Hb Ht Hw Hh.
  pose proof (decode_frame_run lib W b hd w h input_buf input_size output_buf
                out_type out_width out_height Hb Ht Hw Hh) as Hrun.
  cbv zeta in Hrun.
  eexists _, _, _, _, _. cbv zeta.
  split; [exact Hrun |].
  split; [reflexivity |].
  split; [reflexivity |].
  split; [reflexivity |].
  simpl heap.
  pose proof (out_param_outside _ _ _ Ht) as Ot.
  pose proof (out_param_outside _ _ _ Hw) as Ow.
  pose proof (out_param_outside _ _ _ Hh) as Oh.
  split.
  { rewrite !write_outside by assumption. apply lookup_insert_eq. }
  split.
  { intros ->. now rewrite Z.eqb_refl. }
  split.
  { intros Hne. apply Z.eqb_neq in Hne. now rewrite Hne. }
  match goal with
  | |- context [<[b := ?cs]> (heap W)] =>
      apply (out_param_insert _ _ cs) in Ht, Hw, Hh
  end.
  split; [| split].
  - intros Hn H1 H2. apply reported_type; [| done | done].
    eapply out_param_valid; eauto.
  - intros Hn H1. apply reported_width; [| done].
    eapply out_param_valid; eauto.
  - intros Hn. apply reported_height. eapply out_param_valid; eauto.
Qed.

Lemma decode_frame_reports_dimensions_witness :
  exists W',
    decode_frame (H := xvid_1_3) (xvid_double 0 7 (-1) 176 144 0)
                 (Ptr 1 0) 4096 32 8192
                 (Ptr 2 0) (Ptr 3 0) (Ptr 4 0) (one_session 0 0)
    = Ok 0 W'
    /\ heap W' !! 1%positive = Some (session 7 176 144)
    /\ peek (heap W') (Ptr 2 0) = Some (-1)
    /\ peek (heap W') (Ptr 3 0) = Some 176
    /\ peek (heap W') (Ptr 4 0) = Some 144.
Proof.
  destruct (decode_frame_reports_dimensions (H := xvid_1_3)
              (xvid_double 0 7 (-1) 176 144 0) (one_session 0 0)
              1%positive 7 0 0 4096 32 8192 (Ptr 2 0) (Ptr 3 0) (Ptr 4 0))
    as (frame & stats0 & W' & w' & h' & Hrun & _ & _ & _ & Hs & Hhd & _
        & Ht & Hw & Hh).
  - reflexivity.
  - right. split; [eexists; split; [reflexivity | simpl; lia] | discriminate].
  - right. split; [eexists; split; [reflexivity | simpl; lia] | discriminate].
  - right. split; [eexists; split; [reflexivity | simpl; lia] | discriminate].
  - simpl in Hrun, Hhd, Ht, Hw, Hh.
    destruct (Hhd eq_refl) as [-> ->].
    exists W'. repeat split.
    + exact Hrun.
    + exact Hs.
    + apply Ht; discriminate.
    + apply Hw; discriminate.
    + apply Hh; discriminate.
Defined.

(** The output pointers are required to lie outside the session object:
    the heap of the model lets them point into it, and then the store
    through them changes the session.  Here the frame type (1, a picture) is
    reported into the width member. *)
Example decode_frame_aliased_output :
  exists W',
    decode_frame (H := xvid_1_3) (xvid_double 0 7 1 0 0 0)
                 (Ptr 1 0) 4096 32 8192
                 (width (Ptr 1 0)) NULL NULL (one_session 176 144)
    = Ok 0 W'
    /\ heap W' !! 1%positive = Some (session 7 1 144).
Proof. eexists. split; [vm_compute; reflexivity | reflexivity]. Qed.

(** C9: a decode step on a live session changes the session's width and
    height exactly when the statistics carry the header-only frame type -1,
    whatever the result code of the step is; the decoder handle member keeps
    its value in every case. *)
Theorem decode_frame_session_update `{xvid_h}
    (lib : list xvid_call -> xvid_call -> xvid_reply) (W : world xvid_call)
    b hd w h input_buf input_size output_buf out_type out_width out_height :
  heap W !! b = Some (session hd w h) ->
  out_param (heap W) b out_type ->
  out_param (heap W) b out_width ->
  out_param (heap W) b out_height ->
  exists frame stats0 W',
    let r := lib (calls W) (XVID_DEC_DECODE hd frame stats0) in
    let stats := out_dec_stats r in
    decode_frame lib (Ptr b 0) input_buf input_size output_buf
                 out_type out_width out_height W
    = Ok (ret_code r) W'
    /\ calls W' = XVID_DEC_DECODE hd frame stats0 :: calls W
    /\ (dec_stats_type stats = -1 ->
        heap W' !! b
        = Some (session hd (dec_stats_vol_width stats)
                           (dec_stats_vol_height stats)))
    /\ (dec_stats_type stats <> -1 -> heap W' !! b = Some (session hd w h))
    /\ (heap W' !! b <> heap W !! b -> dec_stats_type stats = -1)
    /\ peek (heap W') (decoder_handle (Ptr b 0)) = Some hd.
Proof.
  intros Hb Ht Hw Hh.
  pose proof (decode_frame_run lib W b hd w h input_buf input_size output_buf
                out_type out_width out_height Hb Ht Hw Hh) as Hrun.
  cbv zeta in Hrun.
  eexists _, _, _. cbv zeta.
  split; [exact Hrun |].
  split; [reflexivity |].
  simpl heap.
  pose proof (out_param_outside _ _ _ Ht) as Ot.
  pose proof (out_param_outside _ _ _ Hw) as Ow.
  pose proof (out_param_outside _ _ _ Hh) as Oh.
  rewrite !write_outside by assumption. rewrite lookup_insert_eq.
  split; [| split; [| split]].
  - intros ->. now rewrite Z.eqb_refl.
  - intros Hne. apply Z.eqb_neq in Hne. now rewrite Hne.
  - intros Hchg.
    destruct (Z.eqb_spec
                (dec_stats_type (out_dec_stats (lib (calls W)
                   (XVID_DEC_DECODE hd
                      {| dec_frame_version := XVID_VERSION;
                         dec_frame_general := 0;
                         dec_frame_bitstream := input_buf;
                         dec_frame_length := input_size;
                         dec_frame_output :=
                           {| csp := XVID_CSP_I420;
                              plane := [output_buf;
                                        ptr_add output_buf (int_mul w h);
                                        ptr_add output_buf
                                          (int_div (int_mul (int_mul w h) 5) 4)];
                              stride := [w; int_div w 2; int_div w 2] |} |}
                      {| dec_stats_version := XVID_VERSION;
                         dec_stats_type := 0;
                         dec_stats_vol_width := 0;
                         dec_stats_vol_height := 0 |})))) (-1))
      as [Heq | Hne]; [exact Heq |].
    now rewrite Hb in Hchg.
  - unfold decoder_handle, field. simpl.
    rewrite !write_outside by assumption. now rewrite lookup_insert_eq.
Qed.

(** The step fails (result code -1) and still carries the header-only frame
    type: the dimensions are taken. *)
Lemma decode_frame_session_update_witness :
  exists W',
    decode_frame (H := xvid_1_3) (xvid_double (-1) 7 (-1) 352 288 0)
                 (Ptr 1 0) 4096 32 8192 NULL NULL NULL (one_session 176 144)
    = Ok (-1) W'
    /\ heap W' !! 1%positive = Some (session 7 352 288).
Proof.
  destruct (decode_frame_session_update (H := xvid_1_3)
              (xvid_double (-1) 7 (-1) 352 288 0) (one_session 176 144)
              1%positive 7 176 144 4096 32 8192 NULL NULL NULL)
    as (frame & stats0 & W' & Hrun & _ & Hhd & _).
  - reflexivity.
  - now left.
  - now left.
  - now left.
  - exists W'. split; [exact Hrun | exact (Hhd eq_refl)].
Defined.

(** C10: each of the three output pointers of a decode step may be null,
    independently of the others.  Whatever the combination, nothing faults;
    the decode request is made once, on the session's context and the
    caller's bitstream and output buffer, and its result code is returned;
    each pointer that is not null receives its value (the frame type, the
    session's width, the session's height) whether or not the other two are
    null; and no other cell outside the session object is written. *)
Theorem decode_frame_null_outputs `{xvid_h}
    (lib : list xvid_call -> xvid_call -> xvid_reply) (W : world xvid_call)
    b hd w h input_buf input_size output_buf out_type out_width out_height :
  heap W !! b = Some (session hd w h) ->
  out_type = NULL \/ (valid (heap W) out_type /\ outside b out_type) ->
  out_width = NULL \/ (valid (heap W) out_width /\ outside b out_width) ->
  out_height = NULL \/ (valid (heap W) out_height /\ outside b out_height) ->
  let request :=
    XVID_DEC_DECODE hd
      {| dec_frame_version := XVID_VERSION;
         dec_frame_general := 0;
         dec_frame_bitstream := input_buf;
         dec_frame_length := input_size;
         dec_frame_output :=
           {| csp := XVID_CSP_I420;
              plane := [output_buf;
                        ptr_add output_buf (int_mul w h);
                        ptr_add output_buf
                          (int_div (int_mul (int_mul w h) 5) 4)];
              stride := [w; int_div w 2; int_div w 2] |} |}
      {| dec_stats_version := XVID_VERSION;
         dec_stats_type := 0;
         dec_stats_vol_width := 0;
         dec_stats_vol_height := 0 |} in
  let r := lib (calls W) request in
  let stats := out_dec_stats r in
  exists W' w' h',
    (* the decode is made, once, and its result code returned *)
    decode_frame lib (Ptr b 0) input_buf input_size output_buf
                 out_type out_width out_height W
    = Ok (ret_code r) W'
    /\ calls W' = request :: calls W
    (* the session after the call *)
    /\ heap W' !! b = Some (session hd w' h')
    /\ (dec_stats_type stats = -1 ->
        w' = dec_stats_vol_width stats /\ h' = dec_stats_vol_height stats)
    /\ (dec_stats_type stats <> -1 -> w' = w /\ h' = h)
    (* each non-null pointer is written, whatever the other two are *)
    /\ (out_type <> NULL -> out_type <> out_width -> out_type <> out_height ->
        peek (heap W') out_type = Some (dec_stats_type stats))
    /\ (out_width <> NULL -> out_width <> out_height ->
        peek (heap W') out_width = Some w')
    /\ (out_height <> NULL -> peek (heap W') out_height = Some h')
    (* the heap in full: three guarded stores after the session update *)
    /\ heap W'
       = write out_height h'
           (write out_width w'
              (write out_type (dec_stats_type stats)
                 (<[b := session hd w' h']> (heap W))))
    (* nothing else is written *)
    /\ (forall q, outside b q ->
          q <> out_type -> q <> out_width -> q <> out_height ->
          peek (heap W') q = peek (heap W) q)
    /\ (forall b', b' <> b ->
          out_type = NULL -> out_width = NULL -> out_height = NULL ->
          heap W' !! b' = heap W !! b').
Proof.
  intros Hb Ht Hw Hh request r stats.
  pose proof (decode_frame_run lib W b hd w h input_buf input_size output_buf
                out_type out_width out_height Hb Ht Hw Hh) as Hrun.
  cbv zeta in Hrun. fold request in Hrun. fold r in Hrun. fold stats in Hrun.
  set (header := dec_stats_type stats =? -1) in *.
  set (w' := if header then dec_stats_vol_width stats else w) in *.
  set (h' := if header then dec_stats_vol_height stats else h) in *.
  eexists _, w', h'.
  split; [exact Hrun |].
  split; [reflexivity |].
  simpl heap.
  pose proof (out_param_outside _ _ _ Ht) as Ot.
  pose proof (out_param_outside _ _ _ Hw) as Ow.
  pose proof (out_param_outside _ _ _ Hh) as Oh.
  split.
  { rewrite !write_outside by assumption. apply lookup_insert_eq. }
  split.
  { intros E. subst w' h' header. rewrite E. now rewrite Z.eqb_refl. }
  split.
  { intros E. apply Z.eqb_neq in E. subst w' h' header. now rewrite E. }
  assert (Ht' := out_param_insert _ _ (session hd w' h') _ Ht).
  assert (Hw' := out_param_insert _ _ (session hd w' h') _ Hw).
  assert (Hh' := out_param_insert _ _ (session hd w' h') _ Hh).
  split.
  { intros Hn H1 H2. apply reported_type; [| done | done].
    eapply out_param_valid; eauto. }
  split.
  { intros Hn H1. apply reported_width; [| done].
    eapply out_param_valid; eauto. }
  split.
  { intros Hn. apply reported_height. eapply out_param_valid; eauto. }
  split; [reflexivity |].
  split.
  - intros q Hq Nt Nw Nh.
    rewrite !peek_write_ne by done.
    destruct q as [|bq iq]; [reflexivity |].
    simpl. simpl in Hq. now rewrite lookup_insert_ne.
  - intros b' Hb' -> -> ->. simpl. now rewrite lookup_insert_ne.
Qed.

(** Only the width pointer is supplied: the width is written through it,
    the step returns the codec's 12, and the caller's other cells are left
    alone. *)
Lemma decode_frame_null_outputs_witness :
  exists W',
    decode_frame (H := xvid_1_3) (xvid_double 12 7 1 0 0 0)
                 (Ptr 1 0) 4096 32 8192 NULL (Ptr 3 0) NULL (one_session 176 144)
    = Ok 12 W'
    /\ calls W'
       = [XVID_DEC_DECODE 7
            {| dec_frame_version := 66304;
               dec_frame_general := 0;
               dec_frame_bitstream := 4096;
               dec_frame_length := 32;
               dec_frame_output :=
                 {| csp := 2;
                    plane := [8192; 33536; 39872];
                    stride := [176; 88; 88] |} |}
            {| dec_stats_version := 66304;
               dec_stats_type := 0;
               dec_stats_vol_width := 0;
               dec_stats_vol_height := 0 |}]
    /\ peek (heap W') (Ptr 3 0) = Some 176
    /\ peek (heap W') (Ptr 2 0) = None
    /\ peek (heap W') (Ptr 4 0) = None.
Proof.
  destruct (decode_frame_null_outputs (H := xvid_1_3)
              (xvid_double 12 7 1 0 0 0) (one_session 176 144)
              1%positive 7 176 144 4096 32 8192 NULL (Ptr 3 0) NULL)
    as (W' & w' & h' & Hrun & Hc & _ & _ & Hpic & _ & Hwidth & _ & _
        & Hkeep & _).
  - reflexivity.
  - now left.
  - right. split; [eexists; split; [reflexivity | simpl; lia] | discriminate].
  - now left.
  - exists W'. split; [exact Hrun |].
    split; [exact Hc |].
    destruct Hpic as [-> _]; [discriminate |].
    split; [apply Hwidth; discriminate |].
    split; (rewrite Hkeep; [reflexivity | discriminate ..]).
Defined.

(* ===================================================================== *)
(** ** The video encoder session                                          *)
(* ===================================================================== *)

(** One encode step on a live session, in full. *)
Lemma encode_frame_run `{xvid_h}
    (lib : list xvid_call -> xvid_call -> xvid_reply) (W : world xvid_call)
    b hd w h yuv_input output_buf output_buf_size force_keyframe :
  heap W !! b = Some (session hd w h) ->
  let request :=
    XVID_ENC_ENCODE hd
      {| enc_frame_version := XVID_VERSION;
         enc_frame_type := if force_keyframe =? 0 then XVID_TYPE_AUTO
                           else XVID_TYPE_IVOP;
         enc_frame_bitstream := output_buf;
         enc_frame_length := output_buf_size;
         enc_frame_input :=
           {| csp := XVID_CSP_I420;
              plane := [yuv_input;
                        ptr_add yuv_input (int_mul w h);
                        ptr_add yuv_input
                          (int_div (int_mul (int_mul w h) 5) 4)];
              stride := [w; int_div w 2; int_div w 2] |};
         enc_frame_vop_flags := 0;
         enc_frame_vol_flags := 0;
         enc_frame_motion := 0;
         enc_frame_quant := 0 |}
      {| enc_stats_version := XVID_VERSION; enc_stats_length := 0 |} in
  let r := lib (calls W) request in
  encode_frame lib (Ptr b 0) yuv_input output_buf output_buf_size
               force_keyframe W
  = Ok (if 0 <? ret_code r then enc_stats_length (out_enc_stats r)
        else ret_code r)
       (World (heap W) (budget W) (request :: calls W)).
Proof.
  intros Hb request r.
  unfold encode_frame, width, height, encoder_handle, field; simpl.
  assert (Pw : peek (heap W) (Ptr b 1) = Some w) by (eapply peek_cell; eauto).
  assert (Ph : peek (heap W) (Ptr b 2) = Some h) by (eapply peek_cell; eauto).
  assert (Pd : peek (heap W) (Ptr b 0) = Some hd) by (eapply peek_cell; eauto).
  repeat first [ erewrite (bind_load (Ptr b 1)) by eassumption
               | erewrite (bind_load (Ptr b 2)) by eassumption
               | erewrite (bind_load (Ptr b 0)) by eassumption ].
  rewrite bind_call. fold request. fold r.
  now destruct (0 <? ret_code r).
Qed.

(** C6: an encode step on a live session makes one request to the codec;
    when the codec's result is positive the step returns the length the
    codec's statistics give, and otherwise it returns the codec's result as
    it is. *)
Theorem encode_frame_result `{xvid_h}
    (lib : list xvid_call -> xvid_call -> xvid_reply) (W : world xvid_call)
    b hd w h yuv_input output_buf output_buf_size force_keyframe :
  heap W !! b = Some (session hd w h) ->
  exists frame stats0 n W',
    let r := lib (calls W) (XVID_ENC_ENCODE hd frame stats0) in
    encode_frame lib (Ptr b 0) yuv_input output_buf output_buf_size
                 force_keyframe W
    = Ok n W'
    /\ calls W' = XVID_ENC_ENCODE hd frame stats0 :: calls W
    /\ heap W' = heap W
    /\ (0 < ret_code r -> n = enc_stats_length (out_enc_stats r))
    /\ (ret_code r <= 0 -> n = ret_code r).
Proof.
  intros Hb.
  pose proof (encode_frame_run lib W b hd w h yuv_input output_buf
                output_buf_size force_keyframe Hb) as Hrun.
  cbv zeta in Hrun.
  eexists _, _, _, _. cbv zeta.
  split; [exact Hrun |].
  split; [reflexivity |].
  split; [reflexivity |].
  split.
  - intros Hpos. apply Z.ltb_lt in Hpos. now rewrite Hpos.
  - intros Hle. apply Z.ltb_ge in Hle. now rewrite Hle.
Qed.

(** A codec result of 1 with 1234 bytes in the statistics, and a codec
    error. *)
Lemma encode_frame_result_witness :
  (exists W',
     encode_frame (H := xvid_1_3) (xvid_double 1 7 0 0 0 1234)
                  (Ptr 1 0) 4096 8192 65536 1 (one_session 176 144)
     = Ok 1234 W')
  /\ (exists W',
     encode_frame (H := xvid_1_3) (xvid_double (-3) 7 0 0 0 1234)
                  (Ptr 1 0) 4096 8192 65536 1 (one_session 176 144)
     = Ok (-3) W').
Proof.
  split.
  - destruct (encode_frame_result (H := xvid_1_3)
                (xvid_double 1 7 0 0 0 1234) (one_session 176 144)
                1%positive 7 176 144 4096 8192 65536 1)
      as (frame & stats0 & n & W' & Hrun & _ & _ & Hpos & _);
      [reflexivity |].
    exists W'. simpl in Hpos. rewrite Hpos in Hrun by lia. exact Hrun.
  - destruct (encode_frame_result (H := xvid_1_3)
                (xvid_double (-3) 7 0 0 0 1234) (one_session 176 144)
                1%positive 7 176 144 4096 8192 65536 1)
      as (frame & stats0 & n & W' & Hrun & _ & _ & _ & Hneg);
      [reflexivity |].
    exists W'. simpl in Hneg. rewrite Hneg in Hrun by lia. exact Hrun.
Defined.

(* ===================================================================== *)
(** ** The plane layout                                                   *)
(* ===================================================================== *)

(** The offsets the bridge computes, for even dimensions whose product
    times five is an [int]. *)
Lemma plane_offsets_exact w h :
  Z.even w = true -> Z.even h = true -> int_range (w * h * 5) ->
  int_mul w h = w * h
  /\ int_div (int_mul (int_mul w h) 5) 4 = w * h + w * h / 4
  /\ int_div w 2 = w / 2.
Proof.
  intros Hw Hh Hr.
  destruct (even_mul_4 w h Hw Hh) as [q Hq].
  assert (Hwh : int_mul w h = w * h).
  { apply int_mul_exact. unfold int_range, INT_MIN, INT_MAX in *. lia. }
  split; [exact Hwh |]. split.
  - rewrite Hwh, int_mul_exact by exact Hr.
    unfold int_div. rewrite Hq.
    replace (4 * q * 5) with (5 * q * 4) by ring.
    rewrite Z.quot_mul by lia.
    replace (4 * q) with (q * 4) by ring.
    rewrite Z.div_mul by lia. ring.
  - unfold int_div. apply Z.even_spec in Hw as [a ->].
    replace (2 * a) with (a * 2) by ring.
    now rewrite Z.quot_mul, Z.div_mul by lia.
Qed.

(** C2, as amended: for even width [w] and height [h] of the session whose
    product times five is an [int], the picture handed to the codec by a
    decode step and by an encode step has Y at offset 0 with stride [w], U at
    offset [w*h] with stride [w/2] and V at offset [w*h + w*h/4] (which is
    [w*h*5/4]) with stride [w/2]; the three planes, of [h], [h/2] and [h/2]
    rows, fill [w*h*3/2] bytes. *)
Theorem plane_offset_law `{xvid_h}
    (lib : list xvid_call -> xvid_call -> xvid_reply) (W : world xvid_call)
    b hd w h input_buf input_size output_buf out_type out_width out_height
    yuv_input bitstream_buf bitstream_size force_keyframe :
  heap W !! b = Some (session hd w h) ->
  out_param (heap W) b out_type ->
  out_param (heap W) b out_width ->
  out_param (heap W) b out_height ->
  Z.even w = true -> Z.even h = true -> int_range (w * h * 5) ->
  (exists frame stats0,
     calls (final (decode_frame lib (Ptr b 0) input_buf input_size output_buf
                                out_type out_width out_height W))
     = XVID_DEC_DECODE hd frame stats0 :: calls W
     /\ plane (dec_frame_output frame)
        = [output_buf;
           ptr_add output_buf (w * h);
           ptr_add output_buf (w * h + w * h / 4)]
     /\ stride (dec_frame_output frame) = [w; w / 2; w / 2])
  /\ (exists frame stats0,
     calls (final (encode_frame lib (Ptr b 0) yuv_input bitstream_buf
                                bitstream_size force_keyframe W))
     = XVID_ENC_ENCODE hd frame stats0 :: calls W
     /\ plane (enc_frame_input frame)
        = [yuv_input;
           ptr_add yuv_input (w * h);
           ptr_add yuv_input (w * h + w * h / 4)]
     /\ stride (enc_frame_input frame) = [w; w / 2; w / 2])
  /\ w * h + w * h / 4 = w * h * 5 / 4
  /\ w * h + (w / 2) * (h / 2) = w * h + w * h / 4
  /\ w * h + w * h / 4 + (w / 2) * (h / 2) = w * h * 3 / 2.
Proof.
  intros Hb Ht Hwp Hhp Hw Hh Hr.
  destruct (plane_offsets_exact w h Hw Hh Hr) as (E1 & E2 & E3).
  split; [| split].
  - rewrite (decode_frame_run lib W b hd w h) by assumption.
    eexists _, _. simpl. split; [reflexivity |].
    now rewrite E2, E1, E3.
  - rewrite (encode_frame_run lib W b hd w h) by assumption.
    eexists _, _. simpl. split; [reflexivity |].
    now rewrite E2, E1, E3.
  - apply Z.even_spec in Hw as [a ->]. apply Z.even_spec in Hh as [c ->].
    replace (2 * a * (2 * c)) with (a * c * 4) by ring.
    replace (a * c * 4 * 5) with (a * c * 5 * 4) by ring.
    replace (a * c * 4 * 3) with (a * c * 6 * 2) by ring.
    replace (2 * a) with (a * 2) by ring.
    replace (2 * c) with (c * 2) by ring.
    rewrite !Z.div_mul by lia. repeat split; ring.
Qed.

Lemma plane_offset_law_witness :
  exists frame stats0,
    calls (final (decode_frame (H := xvid_1_3) (xvid_double 0 7 1 0 0 0)
                    (Ptr 1 0) 4096 32 8192 NULL NULL NULL
                    (one_session 176 144)))
    = [XVID_DEC_DECODE 7 frame stats0]
    /\ plane (dec_frame_output frame) = [8192; 33536; 39872]
    /\ stride (dec_frame_output frame) = [176; 88; 88].
Proof.
  destruct (plane_offset_law (H := xvid_1_3) (xvid_double 0 7 1 0 0 0)
              (one_session 176 144) 1%positive 7 176 144 4096 32 8192
              NULL NULL NULL 4096 8192 65536 0)
    as [(frame & stats0 & Hc & Hp & Hs) _].
  - reflexivity.
  - now left.
  - now left.
  - now left.
  - reflexivity.
  - reflexivity.
  - unfold int_range, INT_MIN, INT_MAX. lia.
  - exists frame, stats0. split; [exact Hc |]. split; [exact Hp | exact Hs].
Defined.

(** C2, as stated, fails where the arithmetic leaves the range of [int]: for
    the even dimensions 32768 x 32768 the V plane is requested 268435456
    bytes into the buffer (taken at address 0 here), not
    [w*h + w*h/4] = 1342177280 bytes. *)
Lemma plane_offset_law_overflow :
  Z.even 32768 = true
  /\ (exists frame stats0 W',
        decode_frame (H := xvid_1_3) (xvid_double 0 7 1 0 0 0)
                     (Ptr 1 0) 4096 32 0 NULL NULL NULL
                     (one_session 32768 32768)
        = Ok 0 W'
        /\ calls W' = [XVID_DEC_DECODE 7 frame stats0]
        /\ plane (dec_frame_output frame) !! 2%nat = Some 268435456)
  /\ 32768 * 32768 + 32768 * 32768 / 4 = 1342177280
  /\ 268435456 <> ptr_add 0 (32768 * 32768 + 32768 * 32768 / 4).
Proof.
  split; [reflexivity |].
  split.
  - eexists _, _, _. split; [vm_compute; reflexivity |].
    split; reflexivity.
  - split; [reflexivity | discriminate].
Qed.

(* ===================================================================== *)
(** ** Creating and closing video sessions                                *)
(* ===================================================================== *)

Lemma fresh_block_free (m : mem) : m !! fresh (dom m) = None.
Proof. apply not_elem_of_dom, is_fresh. Qed.

(** Filling in the three members of a freshly allocated session object. *)
Lemma fill_session {call : Type} (W : world call) b handle w h :
  heap W !! b = Some (replicate 3 None) ->
  (store (field (Ptr b 0) 0) handle ;;
   store (field (Ptr b 0) 1) w ;;
   store (field (Ptr b 0) 2) h ;;
   pure (Ptr b 0)) W
  = Ok (Ptr b 0)
       (World (<[b := session handle w h]> (heap W)) (budget W) (calls W)).
Proof.
  intros Hb. simpl field.
  erewrite bind_store by (apply poke_cell; [exact Hb | simpl; lia]).
  erewrite bind_store
    by (simpl heap; apply poke_cell; [apply lookup_insert_eq | simpl; lia]).
  erewrite bind_store
    by (simpl heap; apply poke_cell; [apply lookup_insert_eq | simpl; lia]).
  simpl. now rewrite !insert_insert_eq.
Qed.

Section Sessions.

Context `{xvid_h}.
Variable lib : list xvid_call -> xvid_call -> xvid_reply.

Implicit Types W : world xvid_call.

(** Creating a decoder session, in full: the four ways it can go. *)
Lemma init_decoder_run W width_hint height_hint :
  let init :=
    xvid_global 0 0 {| gbl_version := XVID_VERSION; gbl_cpu_flags := 0 |} in
  let request :=
    XVID_DEC_CREATE 0
      {| dec_create_version := XVID_VERSION;
         dec_create_width := 0;
         dec_create_height := 0;
         dec_create_handle := 0 |} in
  let r := lib (init :: calls W) request in
  let history := request :: init :: calls W in
  init_decoder lib width_hint height_hint W
  = match budget W with
    | O =>
        if ret_code r =? 0 then Fault (World (heap W) 0 history)
        else Ok NULL (World (heap W) 0 history)
    | S k =>
        let b := fresh (dom (heap W)) in
        if ret_code r =? 0
        then Ok (Ptr b 0)
                (World (<[b := session (out_handle r) width_hint height_hint]>
                          (heap W))
                       k history)
        else Ok NULL (World (heap W) (S k) history)
    end.
Proof.
  intros init request r history.
  unfold init_decoder. rewrite bind_call. fold init.
  unfold bind at 1, malloc. simpl budget.
  destruct (budget W) as [|k].
  - rewrite bind_call. cbn [heap budget calls]. fold request. fold r.
    fold history.
    destruct (ret_code r =? 0); cbn [negb].
    + now rewrite bind_store_fault.
    + reflexivity.
  - cbv zeta. rewrite bind_call. cbn [heap budget calls]. fold request.
    fold r. fold history.
    destruct (ret_code r =? 0); cbn [negb].
    + unfold decoder_handle, Xvid.width, Xvid.height.
      rewrite fill_session by apply lookup_insert_eq.
      simpl. now rewrite insert_insert_eq.
    + unfold bind, free. simpl heap. rewrite lookup_insert_eq. simpl.
      now rewrite delete_insert_eq, delete_id by apply fresh_block_free.
Qed.

(** Creating an encoder session, in full. *)
Lemma init_encoder_run W width_arg height_arg bitrate fps_num fps_den :
  let init :=
    xvid_global 0 0 {| gbl_version := XVID_VERSION; gbl_cpu_flags := 0 |} in
  let request :=
    XVID_ENC_CREATE 0
      {| enc_create_version := XVID_VERSION;
         enc_create_width := width_arg;
         enc_create_height := height_arg;
         enc_create_fincr := fps_den;
         enc_create_fbase := fps_num;
         enc_create_zones := 0;
         enc_create_num_zones := 0;
         enc_create_plugins := 0;
         enc_create_num_plugins := 0;
         enc_create_num_threads := 0;
         enc_create_max_bframes := 0;
         enc_create_max_key_interval := 250;
         enc_create_global := 0;
         enc_create_handle := 0 |} in
  let r := lib (init :: calls W) request in
  let history := request :: init :: calls W in
  init_encoder lib width_arg height_arg bitrate fps_num fps_den W
  = match budget W with
    | O =>
        if ret_code r =? 0 then Fault (World (heap W) 0 history)
        else Ok NULL (World (heap W) 0 history)
    | S k =>
        let b := fresh (dom (heap W)) in
        if ret_code r =? 0
        then Ok (Ptr b 0)
                (World (<[b := session (out_handle r) width_arg height_arg]>
                          (heap W))
                       k history)
        else Ok NULL (World (heap W) (S k) history)
    end.
Proof.
  intros init request r history.
  unfold init_encoder. rewrite bind_call. fold init.
  unfold bind at 1, malloc. simpl budget.
  destruct (budget W) as [|k].
  - rewrite bind_call. cbn [heap budget calls]. fold request. fold r.
    fold history.
    destruct (ret_code r =? 0); cbn [negb].
    + now rewrite bind_store_fault.
    + reflexivity.
  - cbv zeta. rewrite bind_call. cbn [heap budget calls]. fold request.
    fold r. fold history.
    destruct (ret_code r =? 0); cbn [negb].
    + unfold encoder_handle, Xvid.width, Xvid.height.
      rewrite fill_session by apply lookup_insert_eq.
      simpl. now rewrite insert_insert_eq.
    + unfold bind, free. simpl heap. rewrite lookup_insert_eq. simpl.
      now rewrite delete_insert_eq, delete_id by apply fresh_block_free.
Qed.

(** Closing a live session: the context is destroyed when its handle is not
    null, and the session object is freed. *)
Lemma close_decoder_live W b hd w h :
  heap W !! b = Some (session hd w h) ->
  close_decoder lib (Ptr b 0) W
  = Ok tt (World (delete b (heap W)) (S (budget W))
                 (if hd =? 0 then calls W
                  else XVID_DEC_DESTROY hd :: calls W)).
Proof.
  intros Hb. unfold close_decoder, decoder_handle. simpl.
  erewrite bind_load by (eapply peek_cell; [exact Hb | reflexivity]).
  destruct (hd =? 0).
  - rewrite bind_pure. unfold free. now rewrite Hb.
  - unfold bind, call_lib, free. simpl. now rewrite Hb.
Qed.

Lemma close_encoder_live W b hd w h :
  heap W !! b = Some (session hd w h) ->
  close_encoder lib (Ptr b 0) W
  = Ok tt (World (delete b (heap W)) (S (budget W))
                 (if hd =? 0 then calls W
                  else XVID_ENC_DESTROY hd :: calls W)).
Proof.
  intros Hb. unfold close_encoder, encoder_handle. simpl.
  erewrite bind_load by (eapply peek_cell; [exact Hb | reflexivity]).
  destruct (hd =? 0).
  - rewrite bind_pure. unfold free. now rewrite Hb.
  - unfold bind, call_lib, free. simpl. now rewrite Hb.
Qed.

(** Closing a session whose object is no longer allocated reads freed
    memory. *)
Lemma close_decoder_dangling W b i :
  heap W !! b = None -> close_decoder lib (Ptr b i) W = Fault W.
Proof.
  intros Hb. unfold close_decoder, decoder_handle. simpl.
  rewrite bind_load_fault; [reflexivity |]. simpl. now rewrite Hb.
Qed.

Lemma close_encoder_dangling W b i :
  heap W !! b = None -> close_encoder lib (Ptr b i) W = Fault W.
Proof.
  intros Hb. unfold close_encoder, encoder_handle. simpl.
  rewrite bind_load_fault; [reflexivity |]. simpl. now rewrite Hb.
Qed.

End Sessions.

(** C3, as amended: for the video decoder and the video encoder, Close on
    what Create returned does not fault and leaves the heap as it was before
    Create; on the null session of a failed creation it does nothing, however
    often it is called; on a created session a second Close is not a no-op:
    it reads the session object that the first Close freed, which faults.
    The audio Close passes its handle to [lame_close] each time it is called,
    with no check of its own. *)
Theorem close_after_create `{xvid_h}
    (lib : list xvid_call -> xvid_call -> xvid_reply)
    (lame : list lame_call -> lame_call -> Z) :
  (forall W0 width_hint height_hint state W1,
      init_decoder lib width_hint height_hint W0 = Ok state W1 ->
      exists W2,
        close_decoder lib state W1 = Ok tt W2
        /\ heap W2 = heap W0
        /\ (state = NULL -> W2 = W1 /\ close_decoder lib state W2 = Ok tt W2)
        /\ (state <> NULL -> close_decoder lib state W2 = Fault W2))
  /\ (forall W0 width_arg height_arg bitrate fps_num fps_den state W1,
      init_encoder lib width_arg height_arg bitrate fps_num fps_den W0
      = Ok state W1 ->
      exists W2,
        close_encoder lib state W1 = Ok tt W2
        /\ heap W2 = heap W0
        /\ (state = NULL -> W2 = W1 /\ close_encoder lib state W2 = Ok tt W2)
        /\ (state <> NULL -> close_encoder lib state W2 = Fault W2))
  /\ (forall W : world xvid_call,
      close_decoder lib NULL W = Ok tt W /\ close_encoder lib NULL W = Ok tt W)
  /\ (forall (W : world lame_call) gfp,
      close_lame lame gfp W
      = Ok tt (World (heap W) (budget W) (lame_close gfp :: calls W))).
Proof.
  split; [| split; [| split]].
  - intros W0 wh hh state W1 Hinit.
    rewrite init_decoder_run in Hinit. cbv zeta in Hinit.
    destruct (budget W0) as [|k];
      destruct (ret_code _ =? 0) in Hinit; inversion Hinit; subst;
      try (eexists; split; [reflexivity |]; split; [reflexivity |];
           split; [intros _; split; reflexivity | intros N; now destruct N]).
    erewrite close_decoder_live by apply lookup_insert_eq.
    eexists; split; [reflexivity |]. simpl heap.
    split; [| split; [discriminate |]].
    + now rewrite delete_insert_eq, delete_id by apply fresh_block_free.
    + intros _. apply close_decoder_dangling. simpl. apply lookup_delete_eq.
  - intros W0 wa ha br fn fd state W1 Hinit.
    rewrite init_encoder_run in Hinit. cbv zeta in Hinit.
    destruct (budget W0) as [|k];
      destruct (ret_code _ =? 0) in Hinit; inversion Hinit; subst;
      try (eexists; split; [reflexivity |]; split; [reflexivity |];
           split; [intros _; split; reflexivity | intros N; now destruct N]).
    erewrite close_encoder_live by apply lookup_insert_eq.
    eexists; split; [reflexivity |]. simpl heap.
    split; [| split; [discriminate |]].
    + now rewrite delete_insert_eq, delete_id by apply fresh_block_free.
    + intros _. apply close_encoder_dangling. simpl. apply lookup_delete_eq.
  - intros W. split; reflexivity.
  - intros W gfp. reflexivity.
Qed.

(** A decoder session is created, closed, and closed again. *)
Lemma close_after_create_witness :
  exists state W1 W2,
    init_decoder (H := xvid_1_3) (xvid_double 0 7 0 0 0 0) 0 0 (empty_world 1)
    = Ok state W1
    /\ close_decoder (xvid_double 0 7 0 0 0 0) state W1 = Ok tt W2
    /\ heap W2 = ∅
    /\ close_decoder (xvid_double 0 7 0 0 0 0) state W2 = Fault W2.
Proof.
  destruct (close_after_create (H := xvid_1_3) (xvid_double 0 7 0 0 0 0)
              (lame_double 0)) as [Hdec _].
  destruct (Hdec (empty_world 1) 0 0 (Ptr 1 0)
              (World {[1%positive := session 7 0 0]} 0
                 [XVID_DEC_CREATE 0
                    {| dec_create_version := 66304;
                       dec_create_width := 0;
                       dec_create_height := 0;
                       dec_create_handle := 0 |};
                  xvid_global 0 0
                    {| gbl_version := 66304; gbl_cpu_flags := 0 |}]))
    as (W2 & Hclose & Hheap & _ & Hagain).
  - vm_compute. reflexivity.
  - eexists _, _, W2. split; [vm_compute; reflexivity |].
    split; [exact Hclose |]. split; [exact Hheap |].
    apply Hagain. discriminate.
Defined.

(** C3, as stated, fails: the second Close of a decoder session faults. *)
Lemma double_close_faults :
  exists state W1 W2,
    init_decoder (H := xvid_1_3) (xvid_double 0 7 0 0 0 0) 0 0 (empty_world 1)
    = Ok state W1
    /\ close_decoder (xvid_double 0 7 0 0 0 0) state W1 = Ok tt W2
    /\ close_decoder (xvid_double 0 7 0 0 0 0) state W2 = Fault W2.
Proof.
  eexists _, _, _.
  split; [vm_compute; reflexivity |].
  split; [vm_compute; reflexivity |].
  vm_compute. reflexivity.
Qed.

(** When the allocation of the session object fails and the codec creates
    its context, Create stores through the null pointer. *)
Lemma init_decoder_null_store `{xvid_h}
    (lib : list xvid_call -> xvid_call -> xvid_reply) (W : world xvid_call)
    width_hint height_hint :
  budget W = O ->
  ret_code (lib (xvid_global 0 0 {| gbl_version := XVID_VERSION;
                                    gbl_cpu_flags := 0 |} :: calls W)
                (XVID_DEC_CREATE 0
                   {| dec_create_version := XVID_VERSION;
                      dec_create_width := 0;
                      dec_create_height := 0;
                      dec_create_handle := 0 |})) = 0 ->
  exists W', init_decoder lib width_hint height_hint W = Fault W'.
Proof.
  intros Hb Hr. rewrite init_decoder_run. cbv zeta.
  rewrite Hb, Hr. eexists. reflexivity.
Qed.

(** C4: Create with a failed allocation of the session object, evaluated
    where no object can be allocated and the codec creates its context
    (handle 7).  Create does not return null there: it faults at the store
    through the null session pointer, and the context it created is left
    open. *)
Theorem create_with_failed_allocation :
  (exists W',
     init_decoder (H := xvid_1_3) (xvid_double 0 7 0 0 0 0) 0 0 (empty_world 0)
     = Fault W'
     /\ open_contexts (calls W') (xvid_double 0 7 0 0 0 0) = [7])
  /\ (exists W',
     init_encoder (H := xvid_1_3) (xvid_double 0 7 0 0 0 0)
                  176 144 500000 25 1 (empty_world 0)
     = Fault W'
     /\ open_contexts (calls W') (xvid_double 0 7 0 0 0 0) = [7]).
Proof.
  split; eexists; (split; [vm_compute; reflexivity | reflexivity]).
Qed.

(** C7: Create of a video encoder asks the codec for a context with the
    given width and height, frame increment [fps_den] and frame base
    [fps_num], no zones, no plug-ins, no extra threads, no B-frames and a
    maximum key frame interval of 250. *)
Theorem init_encoder_configuration `{xvid_h}
    (lib : list xvid_call -> xvid_call -> xvid_reply) (W : world xvid_call)
    width_arg height_arg bitrate fps_num fps_den :
  exists init cfg,
    calls (final (init_encoder lib width_arg height_arg bitrate
                               fps_num fps_den W))
    = XVID_ENC_CREATE 0 cfg :: xvid_global 0 0 init :: calls W
    /\ enc_create_width cfg = width_arg
    /\ enc_create_height cfg = height_arg
    /\ enc_create_fincr cfg = fps_den
    /\ enc_create_fbase cfg = fps_num
    /\ enc_create_zones cfg = 0
    /\ enc_create_num_zones cfg = 0
    /\ enc_create_plugins cfg = 0
    /\ enc_create_num_plugins cfg = 0
    /\ enc_create_num_threads cfg = 0
    /\ enc_create_max_bframes cfg = 0
    /\ enc_create_max_key_interval cfg = 250.
Proof.
  rewrite init_encoder_run. cbv zeta.
  eexists _, _. split.
  - destruct (budget W); destruct (ret_code _ =? 0); reflexivity.
  - simpl. repeat split.
Qed.

(* ===================================================================== *)
(** ** The audio encoder session                                          *)
(* ===================================================================== *)

(** Creating an audio session, in full: seven calls, newest first. *)
Lemma init_lame_run (lib : list lame_call -> lame_call -> Z)
    (W : world lame_call) number_of_channels sample_rate bitrate :
  let gfp := lib (calls W) lame_init in
  init_lame lib number_of_channels sample_rate bitrate W
  = Ok gfp
       (World (heap W) (budget W)
          (lame_init_params gfp
           :: lame_set_bWriteVbrTag gfp 0
           :: lame_set_brate gfp (int_div bitrate 1000)
           :: lame_set_out_samplerate gfp sample_rate
           :: lame_set_in_samplerate gfp sample_rate
           :: lame_set_num_channels gfp number_of_channels
           :: lame_init
           :: calls W)).
Proof. reflexivity. Qed.

(** C5: Create of an audio session returns the context that [lame_init]
    gave, with no fault, after the validation step [lame_init_params] has
    been made; the answer of that step has no part in the result: a library
    that differs only in what it answers to [lame_init_params] gets the same
    session back. *)
Theorem init_lame_ignores_validation
    (lib : list lame_call -> lame_call -> Z) (W : world lame_call)
    number_of_channels sample_rate bitrate :
  let gfp := lib (calls W) lame_init in
  (exists W',
     init_lame lib number_of_channels sample_rate bitrate W = Ok gfp W'
     /\ head (calls W') = Some (lame_init_params gfp))
  /\ (forall lib' : list lame_call -> lame_call -> Z,
        (forall history c,
            (forall g, c <> lame_init_params g) ->
            lib' history c = lib history c) ->
        exists W',
          init_lame lib' number_of_channels sample_rate bitrate W
          = Ok gfp W').
Proof.
  intros gfp. split.
  - eexists. rewrite init_lame_run. split; reflexivity.
  - intros lib' Hsame. eexists. rewrite init_lame_run. cbv zeta.
    rewrite Hsame by discriminate. reflexivity.
Qed.

(** The validation fails (-1) and the session 4242 is returned all the
    same. *)
Lemma init_lame_ignores_validation_witness :
  exists W',
    init_lame (lame_rejecting 4242) 2 44100 128000 (empty_world 0)
    = Ok 4242 W'.
Proof.
  destruct (init_lame_ignores_validation (lame_double 4242) (empty_world 0)
              2 44100 128000) as [_ Hany].
  apply (Hany (lame_rejecting 4242)).
  intros history c Hc. destruct c; try reflexivity.
  now destruct (Hc gfp).
Defined.


(** 128999 bits per second are 128 kilobits per second to the codec. *)
Example init_lame_truncates :
  exists h, calls (final (init_lame (lame_double 4242) 2 44100 128999
                                    (empty_world 0)))
            = h ++ [lame_set_brate 4242 128;
                    lame_set_out_samplerate 4242 44100;
                    lame_set_in_samplerate 4242 44100;
                    lame_set_num_channels 4242 2;
                    lame_init].
Proof. eexists [_; _]. reflexivity. Qed.

(* ===================================================================== *)
(** ** Further properties: creating sessions                              *)
(* ===================================================================== *)

(** X1: in every outcome, Create of a video decoder initialises the codec
    runtime and then asks for a decoder context with width 0, height 0 and a
    null handle: the width and height hints of the caller are not passed to
    the codec. *)
Theorem init_decoder_request `{xvid_h}
    (lib : list xvid_call -> xvid_call -> xvid_reply) (W : world xvid_call)
    width_hint height_hint :
  calls (final (init_decoder lib width_hint height_hint W))
  = XVID_DEC_CREATE 0
      {| dec_create_version := XVID_VERSION;
         dec_create_width := 0;
         dec_create_height := 0;
         dec_create_handle := 0 |}
    :: xvid_global 0 0 {| gbl_version := XVID_VERSION; gbl_cpu_flags := 0 |}
    :: calls W.
Proof.
  rewrite init_decoder_run. cbv zeta.
  destruct (budget W); destruct (ret_code _ =? 0); reflexivity.
Qed.

(** X2: when the session object can be allocated and the codec creates its
    context, Create of a video decoder returns a new object, one that was not
    allocated before, holding the codec's handle and the caller's hints; every
    object allocated before is left as it was. *)
Theorem init_decoder_success `{xvid_h}
    (lib : list xvid_call -> xvid_call -> xvid_reply) (W : world xvid_call)
    width_hint height_hint k r :
  budget W = S k ->
  r = lib (xvid_global 0 0 {| gbl_version := XVID_VERSION;
                              gbl_cpu_flags := 0 |} :: calls W)
          (XVID_DEC_CREATE 0
             {| dec_create_version := XVID_VERSION;
                dec_create_width := 0;
                dec_create_height := 0;
                dec_create_handle := 0 |}) ->
  ret_code r = 0 ->
  exists b W',
    init_decoder lib width_hint height_hint W = Ok (Ptr b 0) W'
    /\ heap W !! b = None
    /\ heap W' !! b = Some (session (out_handle r) width_hint height_hint)
    /\ (forall b', b' <> b -> heap W' !! b' = heap W !! b')
    /\ budget W' = k.
Proof.
  intros Hb -> Hr. rewrite init_decoder_run. cbv zeta. rewrite Hb, Hr.
  eexists _, _. split; [reflexivity |]. simpl.
  split; [apply fresh_block_free |].
  split; [apply lookup_insert_eq |].
  split; [| reflexivity].
  intros b' Hne. now rewrite lookup_insert_ne.
Qed.

(** A second session is created beside a live one. *)
Lemma init_decoder_success_witness :
  exists b W',
    init_decoder (H := xvid_1_3) (xvid_double 0 9 0 0 0 0) 320 240
                 (World (heap (one_session 176 144)) 1 [])
    = Ok (Ptr b 0) W'
    /\ heap W' !! b = Some (session 9 320 240)
    /\ heap W' !! 1%positive = Some (session 7 176 144).
Proof.
  destruct (init_decoder_success (H := xvid_1_3) (xvid_double 0 9 0 0 0 0)
              (World (heap (one_session 176 144)) 1 []) 320 240 0%nat _
              eq_refl eq_refl eq_refl)
    as (b & W' & Hrun & Hfresh & Hs & Hold & _).
  exists b, W'. split; [exact Hrun |]. split; [exact Hs |].
  rewrite Hold; [reflexivity |].
  intros <-. discriminate Hfresh.
Defined.

(** X3: when the codec does not create its context (a result other than 0),
    Create of a video decoder returns null and leaves the heap and the
    allocator as they were, whether or not the session object had been
    allocated. *)
Theorem init_decoder_codec_failure `{xvid_h}
    (lib : list xvid_call -> xvid_call -> xvid_reply) (W : world xvid_call)
    width_hint height_hint :
  ret_code
    (lib (xvid_global 0 0 {| gbl_version := XVID_VERSION;
                             gbl_cpu_flags := 0 |} :: calls W)
         (XVID_DEC_CREATE 0
            {| dec_create_version := XVID_VERSION;
               dec_create_width := 0;
               dec_create_height := 0;
               dec_create_handle := 0 |})) <> 0 ->
  exists W',
    init_decoder lib width_hint height_hint W = Ok NULL W'
    /\ heap W' = heap W
    /\ budget W' = budget W.
Proof.
  intros Hr. apply Z.eqb_neq in Hr.
  rewrite init_decoder_run. cbv zeta. rewrite Hr.
  destruct (budget W) eqn:Hb; eexists; (split; [reflexivity |]); now simpl.
Qed.

Lemma init_decoder_codec_failure_witness :
  exists W',
    init_decoder (H := xvid_1_3) (xvid_double (-1) 0 0 0 0 0) 320 240
                 (World (heap (one_session 176 144)) 1 [])
    = Ok NULL W'
    /\ heap W' = heap (one_session 176 144)
    /\ budget W' = 1%nat.
Proof.
  apply (init_decoder_codec_failure (H := xvid_1_3)
           (xvid_double (-1) 0 0 0 0 0)
           (World (heap (one_session 176 144)) 1 []) 320 240).
  discriminate.
Defined.

(** X4: when the session object can be allocated and the codec creates its
    context, Create of a video encoder returns a new object holding the
    codec's handle and the width and height given; every object allocated
    before is left as it was. *)
Theorem init_encoder_success `{xvid_h}
    (lib : list xvid_call -> xvid_call -> xvid_reply) (W : world xvid_call)
    width_arg height_arg bitrate fps_num fps_den k r :
  budget W = S k ->
  r = lib (xvid_global 0 0 {| gbl_version := XVID_VERSION;
                              gbl_cpu_flags := 0 |} :: calls W)
          (XVID_ENC_CREATE 0
             {| enc_create_version := XVID_VERSION;
                enc_create_width := width_arg;
                enc_create_height := height_arg;
                enc_create_fincr := fps_den;
                enc_create_fbase := fps_num;
                enc_create_zones := 0;
                enc_create_num_zones := 0;
                enc_create_plugins := 0;
                enc_create_num_plugins := 0;
                enc_create_num_threads := 0;
                enc_create_max_bframes := 0;
                enc_create_max_key_interval := 250;
                enc_create_global := 0;
                enc_create_handle := 0 |}) ->
  ret_code r = 0 ->
  exists b W',
    init_encoder lib width_arg height_arg bitrate fps_num fps_den W
    = Ok (Ptr b 0) W'
    /\ heap W !! b = None
    /\ heap W' !! b = Some (session (out_handle r) width_arg height_arg)
    /\ (forall b', b' <> b -> heap W' !! b' = heap W !! b')
    /\ budget W' = k.
Proof.
  intros Hb -> Hr. rewrite init_encoder_run. cbv zeta. rewrite Hb, Hr.
  eexists _, _. split; [reflexivity |]. simpl.
  split; [apply fresh_block_free |].
  split; [apply lookup_insert_eq |].
  split; [| reflexivity].
  intros b' Hne. now rewrite lookup_insert_ne.
Qed.

Lemma init_encoder_success_witness :
  exists b W',
    init_encoder (H := xvid_1_3) (xvid_double 0 9 0 0 0 0)
                 176 144 500000 25 1 (empty_world 1)
    = Ok (Ptr b 0) W'
    /\ heap W' !! b = Some (session 9 176 144).
Proof.
  destruct (init_encoder_success (H := xvid_1_3) (xvid_double 0 9 0 0 0 0)
              (empty_world 1) 176 144 500000 25 1 0%nat _
              eq_refl eq_refl eq_refl)
    as (b & W' & Hrun & _ & Hs & _).
  exists b, W'. split; [exact Hrun | exact Hs].
Defined.

(** X5: when the codec does not create its context, Create of a video
    encoder returns null and leaves the heap and the allocator as they
    were. *)
Theorem init_encoder_codec_failure `{xvid_h}
    (lib : list xvid_call -> xvid_call -> xvid_reply) (W : world xvid_call)
    width_arg height_arg bitrate fps_num fps_den :
  ret_code
    (lib (xvid_global 0 0 {| gbl_version := XVID_VERSION;
                             gbl_cpu_flags := 0 |} :: calls W)
          (XVID_ENC_CREATE 0
             {| enc_create_version := XVID_VERSION;
                enc_create_width := width_arg;
                enc_create_height := height_arg;
                enc_create_fincr := fps_den;
                enc_create_fbase := fps_num;
                enc_create_zones := 0;
                enc_create_num_zones := 0;
                enc_create_plugins := 0;
                enc_create_num_plugins := 0;
                enc_create_num_threads := 0;
                enc_create_max_bframes := 0;
                enc_create_max_key_interval := 250;
                enc_create_global := 0;
                enc_create_handle := 0 |})) <> 0 ->
  exists W',
    init_encoder lib width_arg height_arg bitrate fps_num fps_den W
    = Ok NULL W'
    /\ heap W' = heap W
    /\ budget W' = budget W.
Proof.
  intros Hr. apply Z.eqb_neq in Hr.
  rewrite init_encoder_run. cbv zeta. rewrite Hr.
  destruct (budget W) eqn:Hb; eexists; (split; [reflexivity |]); now simpl.
Qed.

Lemma init_encoder_codec_failure_witness :
  exists W',
    init_encoder (H := xvid_1_3) (xvid_double (-1) 0 0 0 0 0)
                 176 144 500000 25 1 (empty_world 1)
    = Ok NULL W'
    /\ heap W' = heap (empty_world (call := xvid_call) 1)
    /\ budget W' = 1%nat.
Proof.
  apply (init_encoder_codec_failure (H := xvid_1_3)
           (xvid_double (-1) 0 0 0 0 0) (empty_world 1)
           176 144 500000 25 1).
  discriminate.
Defined.

(** X6: the bitrate given to Create of a video encoder has no effect: the
    calls made to the codec, the session and the result are the same for any
    two bitrates. *)
Theorem init_encoder_bitrate_unused `{xvid_h}
    (lib : list xvid_call -> xvid_call -> xvid_reply) (W : world xvid_call)
    width_arg height_arg bitrate bitrate' fps_num fps_den :
  init_encoder lib width_arg height_arg bitrate fps_num fps_den W
  = init_encoder lib width_arg height_arg bitrate' fps_num fps_den W.
Proof. now rewrite !init_encoder_run. Qed.

(* ===================================================================== *)
(** ** Further properties: decode and encode steps                        *)
(* ===================================================================== *)

Lemma out_param_write (m : mem) b p q v :
  out_param m b p -> out_param (write q v m) b p.
Proof.
  intros [-> | [Hv Ho]]; [now left | right].
  split; [now apply write_valid | done].
Qed.

(** What a decode step leaves for the next one. *)
Lemma decode_frame_step `{xvid_h}
    (lib : list xvid_call -> xvid_call -> xvid_reply) (W : world xvid_call)
    b hd w h input_buf input_size output_buf out_type out_width out_height :
  heap W !! b = Some (session hd w h) ->
  out_param (heap W) b out_type ->
  out_param (heap W) b out_width ->
  out_param (heap W) b out_height ->
  exists frame stats0 W1,
    let r := lib (calls W) (XVID_DEC_DECODE hd frame stats0) in
    let header := dec_stats_type (out_dec_stats r) =? -1 in
    decode_frame lib (Ptr b 0) input_buf input_size output_buf
                 out_type out_width out_height W
    = Ok (ret_code r) W1
    /\ calls W1 = XVID_DEC_DECODE hd frame stats0 :: calls W
    /\ budget W1 = budget W
    /\ heap W1 !! b
       = Some (session hd
                 (if header then dec_stats_vol_width (out_dec_stats r) else w)
                 (if header then dec_stats_vol_height (out_dec_stats r)
                  else h))
    /\ (forall p, out_param (heap W) b p -> out_param (heap W1) b p)
    /\ dec_frame_version frame = XVID_VERSION
    /\ dec_frame_general frame = 0
    /\ dec_frame_bitstream frame = input_buf
    /\ dec_frame_length frame = input_size
    /\ csp (dec_frame_output frame) = XVID_CSP_I420
    /\ plane (dec_frame_output frame)
       = [output_buf;
          ptr_add output_buf (int_mul w h);
          ptr_add output_buf (int_div (int_mul (int_mul w h) 5) 4)]
    /\ stride (dec_frame_output frame) = [w; int_div w 2; int_div w 2]
    /\ stats0 = {| dec_stats_version := XVID_VERSION;
                   dec_stats_type := 0;
                   dec_stats_vol_width := 0;
                   dec_stats_vol_height := 0 |}.
Proof.
  intros Hb Ht Hw Hh.
  pose proof (decode_frame_run lib W b hd w h input_buf input_size output_buf
                out_type out_width out_height Hb Ht Hw Hh) as Hrun.
  cbv zeta in Hrun.
  eexists _, _, _. cbv zeta.
  split; [exact Hrun |].
  split; [reflexivity |]. split; [reflexivity |].
  pose proof (out_param_outside _ _ _ Ht) as Ot.
  pose proof (out_param_outside _ _ _ Hw) as Ow.
  pose proof (out_param_outside _ _ _ Hh) as Oh.
  simpl heap. split.
  { rewrite !write_outside by assumption. apply lookup_insert_eq. }
  split.
  { intros p Hp. do 3 apply out_param_write. now apply out_param_insert. }
  repeat split.
Qed.

(** X7: two decode steps in a row on a live session.  The picture of the
    second step is requested at the geometry of the dimensions the first step
    left: those parsed from the stream when the first result was header-only
    (frame type -1), those the session had before otherwise. *)
Theorem decode_frame_next_geometry `{xvid_h}
    (lib : list xvid_call -> xvid_call -> xvid_reply) (W : world xvid_call)
    b hd w h input1 size1 output1 type1 width1 height1
    input2 size2 output2 type2 width2 height2 :
  heap W !! b = Some (session hd w h) ->
  out_param (heap W) b type1 ->
  out_param (heap W) b width1 ->
  out_param (heap W) b height1 ->
  out_param (heap W) b type2 ->
  out_param (heap W) b width2 ->
  out_param (heap W) b height2 ->
  exists frame1 stats1 W1 frame2 stats2 W2,
    let r1 := lib (calls W) (XVID_DEC_DECODE hd frame1 stats1) in
    let r2 := lib (calls W1) (XVID_DEC_DECODE hd frame2 stats2) in
    let header := dec_stats_type (out_dec_stats r1) =? -1 in
    let w' := if header then dec_stats_vol_width (out_dec_stats r1) else w in
    let h' := if header then dec_stats_vol_height (out_dec_stats r1) else h in
    decode_frame lib (Ptr b 0) input1 size1 output1 type1 width1 height1 W
    = Ok (ret_code r1) W1
    /\ decode_frame lib (Ptr b 0) input2 size2 output2 type2 width2 height2 W1
       = Ok (ret_code r2) W2
    /\ calls W2
       = XVID_DEC_DECODE hd frame2 stats2
         :: XVID_DEC_DECODE hd frame1 stats1 :: calls W
    /\ plane (dec_frame_output frame2)
       = [output2;
          ptr_add output2 (int_mul w' h');
          ptr_add output2 (int_div (int_mul (int_mul w' h') 5) 4)]
    /\ stride (dec_frame_output frame2) = [w'; int_div w' 2; int_div w' 2].
Proof.
  intros Hb Ht1 Hw1 Hh1 Ht2 Hw2 Hh2.
  destruct (decode_frame_step lib W b hd w h input1 size1 output1
              type1 width1 height1 Hb Ht1 Hw1 Hh1)
    as (frame1 & stats1 & W1 & Hrun1 & Hc1 & _ & Hs1 & Hout & _).
  cbv zeta in Hrun1, Hs1.
  destruct (decode_frame_step lib W1 b hd _ _ input2 size2 output2
              type2 width2 height2 Hs1 (Hout _ Ht2) (Hout _ Hw2) (Hout _ Hh2))
    as (frame2 & stats2 & W2 & Hrun2 & Hc2 & _ & _ & _ & _ & _ & _ & _ & _
        & Hp2 & Hst2 & _).
  cbv zeta in Hrun2.
  exists frame1, stats1, W1, frame2, stats2, W2. cbv zeta.
  split; [exact Hrun1 |]. split; [exact Hrun2 |].
  split; [now rewrite Hc2, Hc1 |].
  split; [exact Hp2 | exact Hst2].
Qed.

(** A session of unknown dimensions reads a header of 176 x 144: the next
    picture is requested with U 25344 and V 31680 bytes into the buffer. *)
Lemma decode_frame_next_geometry_witness :
  exists frame2 stats2 W2,
    (decode_frame (H := xvid_1_3) (xvid_double 0 7 (-1) 176 144 0)
                  (Ptr 1 0) 4096 32 8192 NULL NULL NULL ;;
     decode_frame (H := xvid_1_3) (xvid_double 0 7 (-1) 176 144 0)
                  (Ptr 1 0) 4128 900 8192 NULL NULL NULL) (one_session 0 0)
    = Ok 0 W2
    /\ head (calls W2) = Some (XVID_DEC_DECODE 7 frame2 stats2)
    /\ plane (dec_frame_output frame2) = [8192; 33536; 39872]
    /\ stride (dec_frame_output frame2) = [176; 88; 88].
Proof.
  destruct (decode_frame_next_geometry (H := xvid_1_3)
              (xvid_double 0 7 (-1) 176 144 0) (one_session 0 0)
              1%positive 7 0 0 4096 32 8192 NULL NULL NULL
              4128 900 8192 NULL NULL NULL)
    as (frame1 & stats1 & W1 & frame2 & stats2 & W2 & Hrun1 & Hrun2 & Hc
        & Hp & Hs); try (now left); [reflexivity |].
  exists frame2, stats2, W2.
  split; [unfold bind; rewrite Hrun1; exact Hrun2 |].
  split; [now rewrite Hc |].
  split; [exact Hp | exact Hs].
Defined.

(** X8: the decode and encode steps have no null guard on the session,
    unlike Close: on a null session, or on one whose object is not allocated
    (never created, or closed), their first access is a read through the
    session pointer, which is undefined behaviour.  (What the compiled code
    does from there on is outside the model and not stated.) *)
Theorem step_on_dead_session `{xvid_h}
    (lib : list xvid_call -> xvid_call -> xvid_reply) (W : world xvid_call)
    state input_buf input_size output_buf out_type out_width out_height
    yuv_input bitstream_buf bitstream_size force_keyframe :
  state = NULL \/ (exists b i, state = Ptr b i /\ heap W !! b = None) ->
  (forall n W',
      decode_frame lib state input_buf input_size output_buf
                   out_type out_width out_height W
      <> Ok n W')
  /\ (forall n W',
      encode_frame lib state yuv_input bitstream_buf bitstream_size
                   force_keyframe W
      <> Ok n W')
  /\ close_decoder lib NULL W = Ok tt W
  /\ close_encoder lib NULL W = Ok tt W.
Proof.
  intros Hdead.
  assert (Hw : peek (heap W) (width state) = None).
  { destruct Hdead as [-> | (b & i & -> & Hb)]; [reflexivity |].
    simpl. now rewrite Hb. }
  split; [| split; [| split; reflexivity]].
  - intros n W'. unfold decode_frame. now rewrite bind_load_fault.
  - intros n W'. unfold encode_frame. now rewrite bind_load_fault.
Qed.

(** A decode step after Close has no defined result. *)
Lemma step_on_dead_session_witness :
  exists W1,
    close_decoder (xvid_double 0 7 0 0 0 0) (Ptr 1 0) (one_session 176 144)
    = Ok tt W1
    /\ forall n W',
         decode_frame (H := xvid_1_3) (xvid_double 0 7 0 0 0 0)
                      (Ptr 1 0) 4096 32 8192 NULL NULL NULL W1
         <> Ok n W'.
Proof.
  eexists. split; [vm_compute; reflexivity |].
  refine (proj1 (step_on_dead_session (H := xvid_1_3)
                   (xvid_double 0 7 0 0 0 0) _ (Ptr 1 0) 4096 32 8192
                   NULL NULL NULL 0 0 0 0 _)).
  right. exists 1%positive, 0%nat. split; reflexivity.
Defined.

(** X9: what a decode step hands to the codec besides the picture geometry:
    the handle of the session, the caller's bitstream address and size, no
    general flags, colour space I420, and statistics that are zero but for the
    version. *)
Theorem decode_frame_request `{xvid_h}
    (lib : list xvid_call -> xvid_call -> xvid_reply) (W : world xvid_call)
    b hd w h input_buf input_size output_buf out_type out_width out_height :
  heap W !! b = Some (session hd w h) ->
  out_param (heap W) b out_type ->
  out_param (heap W) b out_width ->
  out_param (heap W) b out_height ->
  exists frame stats0,
    calls (final (decode_frame lib (Ptr b 0) input_buf input_size output_buf
                               out_type out_width out_height W))
    = XVID_DEC_DECODE hd frame stats0 :: calls W
    /\ dec_frame_version frame = XVID_VERSION
    /\ dec_frame_general frame = 0
    /\ dec_frame_bitstream frame = input_buf
    /\ dec_frame_length frame = input_size
    /\ csp (dec_frame_output frame) = XVID_CSP_I420
    /\ dec_stats_version stats0 = XVID_VERSION
    /\ dec_stats_type stats0 = 0
    /\ dec_stats_vol_width stats0 = 0
    /\ dec_stats_vol_height stats0 = 0.
Proof.
  intros Hb Ht Hw Hh.
  destruct (decode_frame_step lib W b hd w h input_buf input_size output_buf
              out_type out_width out_height Hb Ht Hw Hh)
    as (frame & stats0 & W1 & Hrun & Hc & _ & _ & _ & Hv & Hg & Hbs & Hl
        & Hcsp & _ & _ & ->).
  cbv zeta in Hrun. rewrite Hrun. simpl final.
  eexists frame, _. split; [exact Hc |]. now repeat split.
Qed.

Lemma decode_frame_request_witness :
  exists frame stats0,
    calls (final (decode_frame (H := xvid_1_3) (xvid_double 0 7 1 0 0 0)
                    (Ptr 1 0) 4096 32 8192 (Ptr 2 0) NULL NULL
                    (one_session 176 144)))
    = [XVID_DEC_DECODE 7 frame stats0]
    /\ dec_frame_bitstream frame = 4096
    /\ dec_frame_length frame = 32.
Proof.
  destruct (decode_frame_request (H := xvid_1_3) (xvid_double 0 7 1 0 0 0)
              (one_session 176 144) 1%positive 7 176 144 4096 32 8192
              (Ptr 2 0) NULL NULL)
    as (frame & stats0 & Hc & _ & _ & Hbs & Hl & _).
  - reflexivity.
  - right. split; [eexists; split; [reflexivity | simpl; lia] | discriminate].
  - now left.
  - now left.
  - exists frame, stats0. split; [exact Hc |]. split; [exact Hbs | exact Hl].
Defined.

(** X10: what an encode step hands to the codec besides the picture
    geometry: the handle of the session; a request for an I-frame when
    [force_keyframe] is not zero and the automatic frame type when it is
    zero; the caller's output address and capacity; colour space I420; no
    flags, no motion mode, no quantiser. *)
Theorem encode_frame_request `{xvid_h}
    (lib : list xvid_call -> xvid_call -> xvid_reply) (W : world xvid_call)
    b hd w h yuv_input output_buf output_buf_size force_keyframe :
  heap W !! b = Some (session hd w h) ->
  exists frame stats0,
    calls (final (encode_frame lib (Ptr b 0) yuv_input output_buf
                               output_buf_size force_keyframe W))
    = XVID_ENC_ENCODE hd frame stats0 :: calls W
    /\ (force_keyframe <> 0 -> enc_frame_type frame = XVID_TYPE_IVOP)
    /\ (force_keyframe = 0 -> enc_frame_type frame = XVID_TYPE_AUTO)
    /\ enc_frame_version frame = XVID_VERSION
    /\ enc_frame_bitstream frame = output_buf
    /\ enc_frame_length frame = output_buf_size
    /\ csp (enc_frame_input frame) = XVID_CSP_I420
    /\ enc_frame_vop_flags frame = 0
    /\ enc_frame_vol_flags frame = 0
    /\ enc_frame_motion frame = 0
    /\ enc_frame_quant frame = 0
    /\ enc_stats_version stats0 = XVID_VERSION
    /\ enc_stats_length stats0 = 0.
Proof.
  intros Hb.
  rewrite (encode_frame_run lib W b hd w h) by exact Hb.
  eexists _, _. split; [reflexivity |]. simpl.
  split.
  { intros Hk. apply Z.eqb_neq in Hk. now rewrite Hk. }
  split.
  { intros ->. reflexivity. }
  now repeat split.
Qed.

(** Any non-zero flag, negative ones too, asks for an I-frame. *)
Lemma encode_frame_request_witness :
  exists frame stats0,
    calls (final (encode_frame (H := xvid_1_3) (xvid_double 1 7 0 0 0 1234)
                    (Ptr 1 0) 4096 8192 65536 (-1) (one_session 176 144)))
    = [XVID_ENC_ENCODE 7 frame stats0]
    /\ enc_frame_type frame = 1.
Proof.
  destruct (encode_frame_request (H := xvid_1_3) (xvid_double 1 7 0 0 0 1234)
              (one_session 176 144) 1%positive 7 176 144 4096 8192 65536 (-1))
    as (frame & stats0 & Hc & Hk & _); [reflexivity |].
  exists frame, stats0. split; [exact Hc |]. apply Hk. discriminate.
Defined.

(* ===================================================================== *)
(** ** Further properties: the life of a session                          *)
(* ===================================================================== *)

(** X11: Close of a live video session frees the session object and nothing
    else, gives the allocator one object back, and asks the codec to destroy
    the context exactly once when the handle is not null and not at all when
    it is null. *)
Theorem close_releases_session `{xvid_h}
    (lib : list xvid_call -> xvid_call -> xvid_reply) (W : world xvid_call)
    b hd w h :
  heap W !! b = Some (session hd w h) ->
  (exists W',
     close_decoder lib (Ptr b 0) W = Ok tt W'
     /\ heap W' !! b = None
     /\ (forall b', b' <> b -> heap W' !! b' = heap W !! b')
     /\ budget W' = S (budget W)
     /\ (hd <> 0 -> calls W' = XVID_DEC_DESTROY hd :: calls W)
     /\ (hd = 0 -> calls W' = calls W))
  /\ (exists W',
     close_encoder lib (Ptr b 0) W = Ok tt W'
     /\ heap W' !! b = None
     /\ (forall b', b' <> b -> heap W' !! b' = heap W !! b')
     /\ budget W' = S (budget W)
     /\ (hd <> 0 -> calls W' = XVID_ENC_DESTROY hd :: calls W)
     /\ (hd = 0 -> calls W' = calls W)).
Proof.
  intros Hb. split.
  - rewrite (close_decoder_live lib W b hd w h Hb).
    eexists. split; [reflexivity |]. simpl.
    split; [apply lookup_delete_eq |].
    split; [intros b' Hne; now rewrite lookup_delete_ne |].
    split; [reflexivity |].
    split.
    + intros Hn. apply Z.eqb_neq in Hn. now rewrite Hn.
    + intros ->. reflexivity.
  - rewrite (close_encoder_live lib W b hd w h Hb).
    eexists. split; [reflexivity |]. simpl.
    split; [apply lookup_delete_eq |].
    split; [intros b' Hne; now rewrite lookup_delete_ne |].
    split; [reflexivity |].
    split.
    + intros Hn. apply Z.eqb_neq in Hn. now rewrite Hn.
    + intros ->. reflexivity.
Qed.

Lemma close_releases_session_witness :
  exists W',
    close_decoder (xvid_double 0 0 0 0 0 0) (Ptr 1 0) (one_session 176 144)
    = Ok tt W'
    /\ heap W' !! 1%positive = None
    /\ heap W' !! 2%positive = Some [None]
    /\ calls W' = [XVID_DEC_DESTROY 7].
Proof.
  destruct (close_releases_session (H := xvid_1_3) (xvid_double 0 0 0 0 0 0)
              (one_session 176 144) 1%positive 7 176 144 eq_refl)
    as [(W' & Hrun & Hgone & Hkeep & _ & Hcall & _) _].
  exists W'. split; [exact Hrun |]. split; [exact Hgone |].
  split; [rewrite Hkeep; [reflexivity | discriminate] |].
  apply Hcall. discriminate.
Defined.

Lemma filter_absent (h : Z) (l : list Z) :
  h ∉ l -> filter (fun h' => h' <> h) l = l.
Proof.
  induction l as [|x l IH]; intros Hnot; [reflexivity |].
  apply not_elem_of_cons in Hnot as [Hne Hl].
  rewrite filter_cons_True by congruence. now rewrite IH.
Qed.

(** X12: Create followed by Close of a video decoder leaves nothing behind.
    When the object can be allocated and the codec creates a context with a
    handle that is not null and not that of a context already open, the
    context is open after Create, and after Close the heap, the allocator and
    the open codec contexts are those from before Create. *)
Theorem create_close_round_trip `{xvid_h}
    (lib : list xvid_call -> xvid_call -> xvid_reply) (W : world xvid_call)
    width_hint height_hint k r :
  budget W = S k ->
  r = lib (xvid_global 0 0 {| gbl_version := XVID_VERSION;
                              gbl_cpu_flags := 0 |} :: calls W)
          (XVID_DEC_CREATE 0
             {| dec_create_version := XVID_VERSION;
                dec_create_width := 0;
                dec_create_height := 0;
                dec_create_handle := 0 |}) ->
  ret_code r = 0 ->
  out_handle r <> 0 ->
  out_handle r ∉ open_contexts (calls W) lib ->
  exists state W1 W2,
    init_decoder lib width_hint height_hint W = Ok state W1
    /\ open_contexts (calls W1) lib
       = out_handle r :: open_contexts (calls W) lib
    /\ close_decoder lib state W1 = Ok tt W2
    /\ heap W2 = heap W
    /\ budget W2 = budget W
    /\ open_contexts (calls W2) lib = open_contexts (calls W) lib.
Proof.
  intros Hb -> Hr Hn Hfresh.
  rewrite init_decoder_run. cbv zeta. rewrite Hb, Hr.
  eexists _, _, _. split; [reflexivity |].
  split; [simpl; now rewrite Hr |].
  erewrite close_decoder_live by apply lookup_insert_eq.
  split; [reflexivity |]. simpl heap; simpl budget; simpl calls.
  split.
  { now rewrite delete_insert_eq, delete_id by apply fresh_block_free. }
  split; [reflexivity |].
  apply Z.eqb_neq in Hn. rewrite Hn. simpl. rewrite Hr.
  change (0 =? 0) with true. cbv iota.
  rewrite filter_cons_False by (intros Hc; now apply Hc).
  now apply filter_absent.
Qed.

Lemma create_close_round_trip_witness :
  exists state W1 W2,
    init_decoder (H := xvid_1_3) (xvid_double 0 9 0 0 0 0) 0 0
                 (World (heap (one_session 176 144)) 1 [])
    = Ok state W1
    /\ close_decoder (xvid_double 0 9 0 0 0 0) state W1 = Ok tt W2
    /\ heap W2 = heap (one_session 176 144)
    /\ open_contexts (calls W2) (xvid_double 0 9 0 0 0 0) = [].
Proof.
  destruct (create_close_round_trip (H := xvid_1_3)
              (xvid_double 0 9 0 0 0 0)
              (World (heap (one_session 176 144)) 1 []) 0 0 0%nat _
              eq_refl eq_refl eq_refl)
    as (state & W1 & W2 & Hinit & _ & Hclose & Hheap & _ & Hopen).
  - discriminate.
  - simpl. apply not_elem_of_nil.
  - exists state, W1, W2.
    split; [exact Hinit |]. split; [exact Hclose |].
    split; [exact Hheap | exact Hopen].
Defined.

Lemma out_param_fresh (m : mem) cs p :
  p = NULL \/ valid m p -> out_param (<[fresh (dom m) := cs]> m) (fresh (dom m)) p.
Proof.
  intros [-> | Hv]; [now left | right].
  assert (Ho : outside (fresh (dom m)) p).
  { destruct p as [|b' i]; [exact I |]. simpl.
    destruct Hv as (cs' & Hb' & _). intros ->.
    now rewrite fresh_block_free in Hb'. }
  split; [now apply insert_valid | exact Ho].
Qed.

(** X13: the first decode step after a successful Create of a video decoder
    runs on the context the codec created and requests the picture at the
    geometry of the caller's hints. *)
Theorem create_then_decode `{xvid_h}
    (lib : list xvid_call -> xvid_call -> xvid_reply) (W : world xvid_call)
    width_hint height_hint k r input_buf input_size output_buf
    out_type out_width out_height :
  budget W = S k ->
  r = lib (xvid_global 0 0 {| gbl_version := XVID_VERSION;
                              gbl_cpu_flags := 0 |} :: calls W)
          (XVID_DEC_CREATE 0
             {| dec_create_version := XVID_VERSION;
                dec_create_width := 0;
                dec_create_height := 0;
                dec_create_handle := 0 |}) ->
  ret_code r = 0 ->
  out_type = NULL \/ valid (heap W) out_type ->
  out_width = NULL \/ valid (heap W) out_width ->
  out_height = NULL \/ valid (heap W) out_height ->
  exists state W1 frame stats0 W2,
    init_decoder lib width_hint height_hint W = Ok state W1
    /\ decode_frame lib state input_buf input_size output_buf
                    out_type out_width out_height W1
       = Ok (ret_code (lib (calls W1)
                          (XVID_DEC_DECODE (out_handle r) frame stats0))) W2
    /\ calls W2 = XVID_DEC_DECODE (out_handle r) frame stats0 :: calls W1
    /\ plane (dec_frame_output frame)
       = [output_buf;
          ptr_add output_buf (int_mul width_hint height_hint);
          ptr_add output_buf
            (int_div (int_mul (int_mul width_hint height_hint) 5) 4)]
    /\ stride (dec_frame_output frame)
       = [width_hint; int_div width_hint 2; int_div width_hint 2].
Proof.
  intros Hb Er Hr Ht Hw Hh.
  rewrite init_decoder_run. cbv zeta. rewrite <- Er, Hb, Hr.
  change (0 =? 0) with true. cbv iota.
  match goal with
  | |- exists state W1 frame stats0 W2, Ok ?p ?W0 = _ /\ _ =>
      set (W1 := W0)
  end.
  destruct (decode_frame_step lib W1 (fresh (dom (heap W))) (out_handle r)
              width_hint height_hint input_buf input_size output_buf
              out_type out_width out_height)
    as (frame & stats0 & W2 & Hrun & Hc & _ & _ & _ & _ & _ & _ & _ & _
        & Hp & Hs & _);
    [ apply lookup_insert_eq
    | now apply out_param_fresh | now apply out_param_fresh
    | now apply out_param_fresh | ].
  cbv zeta in Hrun.
  exists (Ptr (fresh (dom (heap W))) 0), W1, frame, stats0, W2.
  split; [reflexivity |]. split; [exact Hrun |].
  split; [exact Hc |]. split; [exact Hp | exact Hs].
Qed.

Lemma create_then_decode_witness :
  exists state W1 frame stats0 W2,
    init_decoder (H := xvid_1_3) (xvid_double 0 9 1 0 0 0) 176 144
                 (World (heap (one_session 0 0)) 1 [])
    = Ok state W1
    /\ decode_frame (H := xvid_1_3) (xvid_double 0 9 1 0 0 0)
                    state 4096 32 8192 (Ptr 2 0) NULL NULL W1
       = Ok 0 W2
    /\ head (calls W2) = Some (XVID_DEC_DECODE 9 frame stats0)
    /\ plane (dec_frame_output frame) = [8192; 33536; 39872].
Proof.
  destruct (create_then_decode (H := xvid_1_3) (xvid_double 0 9 1 0 0 0)
              (World (heap (one_session 0 0)) 1 []) 176 144 0%nat _
              4096 32 8192 (Ptr 2 0) NULL NULL eq_refl eq_refl eq_refl)
    as (state & W1 & frame & stats0 & W2 & Hinit & Hrun & Hc & Hp & _).
  - right. eexists; split; [reflexivity | simpl; lia].
  - now left.
  - now left.
  - exists state, W1, frame, stats0, W2.
    split; [exact Hinit |]. split; [exact Hrun |].
    split; [now rewrite Hc | exact Hp].
Defined.

(** X14: an encode step after a successful Create of a video encoder runs on
    the context the codec created and takes the picture at the geometry of the
    width and height given to Create. *)
Theorem create_then_encode `{xvid_h}
    (lib : list xvid_call -> xvid_call -> xvid_reply) (W : world xvid_call)
    width_arg height_arg bitrate fps_num fps_den k r
    yuv_input output_buf output_buf_size force_keyframe :
  budget W = S k ->
  r = lib (xvid_global 0 0 {| gbl_version := XVID_VERSION;
                              gbl_cpu_flags := 0 |} :: calls W)
          (XVID_ENC_CREATE 0
             {| enc_create_version := XVID_VERSION;
                enc_create_width := width_arg;
                enc_create_height := height_arg;
                enc_create_fincr := fps_den;
                enc_create_fbase := fps_num;
                enc_create_zones := 0;
                enc_create_num_zones := 0;
                enc_create_plugins := 0;
                enc_create_num_plugins := 0;
                enc_create_num_threads := 0;
                enc_create_max_bframes := 0;
                enc_create_max_key_interval := 250;
                enc_create_global := 0;
                enc_create_handle := 0 |}) ->
  ret_code r = 0 ->
  exists state W1 frame stats0 n W2,
    init_encoder lib width_arg height_arg bitrate fps_num fps_den W
    = Ok state W1
    /\ encode_frame lib state yuv_input output_buf output_buf_size
                    force_keyframe W1
       = Ok n W2
    /\ calls W2 = XVID_ENC_ENCODE (out_handle r) frame stats0 :: calls W1
    /\ heap W2 = heap W1
    /\ plane (enc_frame_input frame)
       = [yuv_input;
          ptr_add yuv_input (int_mul width_arg height_arg);
          ptr_add yuv_input
            (int_div (int_mul (int_mul width_arg height_arg) 5) 4)]
    /\ stride (enc_frame_input frame)
       = [width_arg; int_div width_arg 2; int_div width_arg 2].
Proof.
  intros Hb -> Hr.
  rewrite init_encoder_run. cbv zeta. rewrite Hb, Hr.
  eexists _, _, _, _, _, _.
  split; [reflexivity |].
  split; [apply encode_frame_run; apply lookup_insert_eq |].
  now repeat split.
Qed.

Lemma create_then_encode_witness :
  exists state W1 frame stats0 W2,
    init_encoder (H := xvid_1_3) (xvid_double 0 9 0 0 0 1234)
                 176 144 500000 25 1 (empty_world 1)
    = Ok state W1
    /\ encode_frame (H := xvid_1_3) (xvid_double 0 9 0 0 0 1234)
                    state 4096 8192 65536 0 W1
       = Ok 0 W2
    /\ head (calls W2) = Some (XVID_ENC_ENCODE 9 frame stats0)
    /\ plane (enc_frame_input frame) = [4096; 29440; 35776]
    /\ stride (enc_frame_input frame) = [176; 88; 88].
Proof.
  destruct (create_then_encode (H := xvid_1_3) (xvid_double 0 9 0 0 0 1234)
              (empty_world 1) 176 144 500000 25 1 0%nat _
              4096 8192 65536 0 eq_refl eq_refl eq_refl)
    as (state & W1 & frame & stats0 & n & W2 & Hinit & Hrun & Hc & _ & Hp
        & Hs).
  exists state, W1, frame, stats0, W2.
  split; [exact Hinit |].
  split.
  { rewrite Hrun. f_equal.
    rewrite init_encoder_run in Hinit. inversion Hinit; subst.
    rewrite (encode_frame_run _ _ 1%positive 9 176 144) in Hrun
      by reflexivity.
    now inversion Hrun. }
  split; [now rewrite Hc |].
  split; [exact Hp | exact Hs].
Defined.

(* ===================================================================== *)
(** ** Further properties: the plane arithmetic                           *)
(* ===================================================================== *)

(** X15: while a dimension of the session is 0 (the hint 0 x 0 of a decoder
    whose dimensions are unknown), a decode step hands the codec the three
    planes at one and the same address, the start of the output buffer. *)
Theorem unknown_dimensions_planes `{xvid_h}
    (lib : list xvid_call -> xvid_call -> xvid_reply) (W : world xvid_call)
    b hd w h input_buf input_size output_buf out_type out_width out_height :
  heap W !! b = Some (session hd w h) ->
  out_param (heap W) b out_type ->
  out_param (heap W) b out_width ->
  out_param (heap W) b out_height ->
  w = 0 \/ h = 0 ->
  0 <= output_buf < 2 ^ 32 ->
  exists frame stats0,
    calls (final (decode_frame lib (Ptr b 0) input_buf input_size output_buf
                               out_type out_width out_height W))
    = XVID_DEC_DECODE hd frame stats0 :: calls W
    /\ plane (dec_frame_output frame) = [output_buf; output_buf; output_buf].
Proof.
  intros Hb Ht Hw Hh Hz Hbuf.
  rewrite (decode_frame_run lib W b hd w h) by assumption.
  eexists _, _. split; [reflexivity |]. simpl.
  assert (E : int_mul w h = 0).
  { unfold int_mul. destruct Hz as [-> | ->];
      [rewrite Z.mul_0_l | rewrite Z.mul_0_r]; reflexivity. }
  rewrite E. change (int_div (int_mul 0 5) 4) with 0.
  unfold ptr_add. rewrite Z.add_0_r, Z.mod_small by exact Hbuf. reflexivity.
Qed.

Lemma unknown_dimensions_planes_witness :
  exists frame stats0,
    calls (final (decode_frame (H := xvid_1_3) (xvid_double 0 7 1 0 0 0)
                    (Ptr 1 0) 4096 32 8192 NULL NULL NULL (one_session 0 0)))
    = [XVID_DEC_DECODE 7 frame stats0]
    /\ plane (dec_frame_output frame) = [8192; 8192; 8192].
Proof.
  apply (unknown_dimensions_planes (H := xvid_1_3) (xvid_double 0 7 1 0 0 0)
           (one_session 0 0) 1%positive 7 0 0 4096 32 8192 NULL NULL NULL).
  - reflexivity.
  - now left.
  - now left.
  - now left.
  - now left.
  - lia.
Defined.

(** No wrap-around up to 20724 x 20724. *)
Lemma dimensions_in_range w h :
  0 <= w <= 20724 -> 0 <= h <= 20724 ->
  0 <= w * h /\ int_range (w * h * 5).
Proof.
  intros Hw Hh.
  assert (0 <= w * h) by (apply Z.mul_nonneg_nonneg; lia).
  assert (w * h <= 20724 * 20724) by (apply Z.mul_le_mono_nonneg; lia).
  unfold int_range, INT_MIN, INT_MAX. lia.
Qed.

(** X16: for every width and height between 0 and 20724, odd ones too, the
    arithmetic of the plane offsets does not wrap: a decode step and an encode
    step put U at offset [w*h] and V at offset [w*h + w*h/4] (rounded down),
    with strides [w], [w/2] and [w/2]. *)
Theorem plane_offsets_without_wrap `{xvid_h}
    (lib : list xvid_call -> xvid_call -> xvid_reply) (W : world xvid_call)
    b hd w h input_buf input_size output_buf out_type out_width out_height
    yuv_input bitstream_buf bitstream_size force_keyframe :
  heap W !! b = Some (session hd w h) ->
  out_param (heap W) b out_type ->
  out_param (heap W) b out_width ->
  out_param (heap W) b out_height ->
  0 <= w <= 20724 -> 0 <= h <= 20724 ->
  (exists frame stats0,
     calls (final (decode_frame lib (Ptr b 0) input_buf input_size output_buf
                                out_type out_width out_height W))
     = XVID_DEC_DECODE hd frame stats0 :: calls W
     /\ plane (dec_frame_output frame)
        = [output_buf;
           ptr_add output_buf (w * h);
           ptr_add output_buf (w * h + w * h / 4)]
     /\ stride (dec_frame_output frame) = [w; w / 2; w / 2])
  /\ (exists frame stats0,
     calls (final (encode_frame lib (Ptr b 0) yuv_input bitstream_buf
                                bitstream_size force_keyframe W))
     = XVID_ENC_ENCODE hd frame stats0 :: calls W
     /\ plane (enc_frame_input frame)
        = [yuv_input;
           ptr_add yuv_input (w * h);
           ptr_add yuv_input (w * h + w * h / 4)]
     /\ stride (enc_frame_input frame) = [w; w / 2; w / 2]).
Proof.
  intros Hb Ht Hwp Hhp Hw Hh.
  destruct (dimensions_in_range w h Hw Hh) as [Hpos Hr].
  assert (E1 : int_mul w h = w * h).
  { apply int_mul_exact. unfold int_range, INT_MIN, INT_MAX in *. lia. }
  assert (E2 : int_div (int_mul (int_mul w h) 5) 4 = w * h + w * h / 4).
  { rewrite E1, int_mul_exact by exact Hr. unfold int_div.
    rewrite Z.quot_div_nonneg by lia.
    replace (w * h * 5) with (w * h + w * h * 4) by ring.
    rewrite Z.div_add by lia. ring. }
  assert (E3 : int_div w 2 = w / 2).
  { unfold int_div. apply Z.quot_div_nonneg; lia. }
  split.
  - rewrite (decode_frame_run lib W b hd w h) by assumption.
    eexists _, _. simpl. split; [reflexivity |].
    now rewrite E2, E1, E3.
  - rewrite (encode_frame_run lib W b hd w h) by assumption.
    eexists _, _. simpl. split; [reflexivity |].
    now rewrite E2, E1, E3.
Qed.

(** Odd dimensions, 177 x 145. *)
Lemma plane_offsets_without_wrap_witness :
  exists frame stats0,
    calls (final (decode_frame (H := xvid_1_3) (xvid_double 0 7 1 0 0 0)
                    (Ptr 1 0) 4096 32 0 NULL NULL NULL
                    (one_session 177 145)))
    = [XVID_DEC_DECODE 7 frame stats0]
    /\ plane (dec_frame_output frame) = [0; 25665; 32081]
    /\ stride (dec_frame_output frame) = [177; 88; 88].
Proof.
  destruct (plane_offsets_without_wrap (H := xvid_1_3)
              (xvid_double 0 7 1 0 0 0) (one_session 177 145)
              1%positive 7 177 145 4096 32 0 NULL NULL NULL 0 0 0 0)
    as [(frame & stats0 & Hc & Hp & Hs) _].
  - reflexivity.
  - now left.
  - now left.
  - now left.
  - lia.
  - lia.
  - exists frame, stats0. split; [exact Hc |]. split; [exact Hp | exact Hs].
Defined.

(** The bound is the largest for square pictures: at 20725 x 20725 the
    product times five is not an [int] any more. *)
Example dimensions_in_range_tight :
  int_range (20724 * 20724 * 5) /\ ~ int_range (20725 * 20725 * 5).
Proof. unfold int_range, INT_MIN, INT_MAX. lia. Qed.

(* ===================================================================== *)
(** ** Further properties: the audio session                              *)
(* ===================================================================== *)

(** X17: a whole audio session, Create, EncodeBlock, Flush, Close.  Every
    call of the session is made on the context that [lame_init] returned; the
    results of EncodeBlock and Flush are the library's answers as they are,
    negative ones included, each from a single call; nothing faults and no
    memory is allocated, freed or written by the bridge. *)
Theorem lame_session
    (lib : list lame_call -> lame_call -> Z) (W : world lame_call)
    number_of_channels sample_rate bitrate
    left_buf right_buf sample_count dest_buf dest_buf_size
    flush_buf flush_buf_size :
  exists gfp history,
    gfp = lib (calls W) lame_init
    /\ history
       = [lame_init_params gfp;
          lame_set_bWriteVbrTag gfp 0;
          lame_set_brate gfp (Z.quot bitrate 1000);
          lame_set_out_samplerate gfp sample_rate;
          lame_set_in_samplerate gfp sample_rate;
          lame_set_num_channels gfp number_of_channels;
          lame_init] ++ calls W
    /\ let encode := lame_encode_buffer gfp left_buf right_buf sample_count
                                        dest_buf dest_buf_size in
       let flush := lame_encode_flush gfp flush_buf flush_buf_size in
       (do session <- init_lame lib number_of_channels sample_rate bitrate;
        do written <- encode_samples lib session left_buf right_buf
                                     sample_count dest_buf dest_buf_size;
        do flushed <- flush_lame lib session flush_buf flush_buf_size;
        close_lame lib session ;;
        pure (session, written, flushed)) W
       = Ok (gfp, lib history encode, lib (encode :: history) flush)
            (World (heap W) (budget W)
               (lame_close gfp :: flush :: encode :: history)).
Proof. eexists _, _. split; [reflexivity |]. split; reflexivity. Qed.

(* ===================================================================== *)
(** ** Further properties: what a decode step does not do                 *)
(* ===================================================================== *)

Lemma dom_write (m : mem) p v : dom (write p v m) = dom m.
Proof.
  destruct p as [|b i]; simpl; [reflexivity |].
  destruct (m !! b) eqn:Hb; [| reflexivity].
  apply dom_insert_lookup_L. now rewrite Hb.
Qed.

(** X18: a decode step on a live session allocates nothing and frees
    nothing: the same objects are allocated after it as before, the session
    among them, and the allocator has as much left. *)
Theorem decode_frame_allocates_nothing `{xvid_h}
    (lib : list xvid_call -> xvid_call -> xvid_reply) (W : world xvid_call)
    b hd w h input_buf input_size output_buf out_type out_width out_height :
  heap W !! b = Some (session hd w h) ->
  out_param (heap W) b out_type ->
  out_param (heap W) b out_width ->
  out_param (heap W) b out_height ->
  exists n W',
    decode_frame lib (Ptr b 0) input_buf input_size output_buf
                 out_type out_width out_height W
    = Ok n W'
    /\ dom (heap W') = dom (heap W)
    /\ budget W' = budget W
    /\ (forall p, valid (heap W) p -> valid (heap W') p).
Proof.
  intros Hb Ht Hw Hh.
  rewrite (decode_frame_run lib W b hd w h) by assumption.
  eexists _, _. split; [reflexivity |]. simpl.
  split.
  { rewrite !dom_write. apply dom_insert_lookup_L. now rewrite Hb. }
  split; [reflexivity |].
  intros p Hp. do 3 apply write_valid.
  destruct p as [|b' i]; [destruct Hp |].
  destruct Hp as (cs & Hb' & Hi). simpl.
  destruct (decide (b' = b)) as [-> | Hne].
  - rewrite lookup_insert_eq. rewrite Hb in Hb'. inversion Hb'; subst.
    eexists. split; [reflexivity | exact Hi].
  - rewrite lookup_insert_ne by done. eauto.
Qed.

Lemma decode_frame_allocates_nothing_witness :
  exists n W',
    decode_frame (H := xvid_1_3) (xvid_double 0 7 (-1) 176 144 0)
                 (Ptr 1 0) 4096 32 8192 (Ptr 2 0) (Ptr 3 0) (Ptr 4 0)
                 (one_session 0 0)
    = Ok n W'
    /\ dom (heap W') = dom (heap (one_session 0 0))
    /\ budget W' = 0%nat.
Proof.
  destruct (decode_frame_allocates_nothing (H := xvid_1_3)
              (xvid_double 0 7 (-1) 176 144 0) (one_session 0 0)
              1%positive 7 0 0 4096 32 8192 (Ptr 2 0) (Ptr 3 0) (Ptr 4 0))
    as (n & W' & Hrun & Hdom & Hbud & _).
  - reflexivity.
  - right. split; [eexists; split; [reflexivity | simpl; lia] | discriminate].
  - right. split; [eexists; split; [reflexivity | simpl; lia] | discriminate].
  - right. split; [eexists; split; [reflexivity | simpl; lia] | discriminate].
  - exists n, W'. split; [exact Hrun |]. split; [exact Hdom | exact Hbud].
Defined.
